(** * Video-Editor transcription service: a shallow embedding

    The Python service under [python/app] has three files:
    - [utils.py]: [segments_to_timeline_clips], the segment-to-clip converter;
    - [whisper_service.py]: [get_model] and [transcribe], a wrapper around the
      external Whisper model;
    - [main.py]: the Flask handlers [health] and [handle_transcribe].

    Python values are embedded as follows.
    - [float] is IEEE binary64, the kernel's primitive floats; [int] is [Z];
      [round] is CPython's correctly rounded [float.__round__].
    - [str] is a list of Unicode code points.
    - a segment dict is a record of optional fields (a key is present or not).
    - exceptions are values of [PyExc]; code that can raise returns [result].
    - the handlers run in a state-and-exception monad over [World]; what the
      operating system and the Whisper model do during a request is read
      from an [Env].

    Paths follow POSIX and a [str] holds Unicode scalar values only, as a
    request yields them.  Whisper keeps its downloads in a cache of its own,
    apart from the other files; besides that cache and what it prints, the
    external model changes nothing.  Every exception is an instance of
    [Exception]; stdout and stderr are open, so printing does not fail. *)

From Stdlib Require Import ZArith NArith Floats Ascii String DecimalString.
From stdpp Require Import gmap list.

Set Warnings "-inexact-float".

(** ** Strings *)

(** A Python [str]: the sequence of its code points. *)
Definition pystr : Type := list N.

(** An ASCII literal as a [str]. *)
Definition str (s : string) : pystr := N_of_ascii <$> list_ascii_of_string s.

(** Truth value of a [str]: non-empty. *)
Definition str_truthy (s : pystr) : bool :=
  match s with [] => false | _ :: _ => true end.

(** [Py_UNICODE_ISSPACE]: the code points [str.strip()] removes. *)
Definition Py_UNICODE_ISSPACE (c : N) : bool :=
  ((9 <=? c) && (c <=? 13) || (28 <=? c) && (c <=? 32)
   || (c =? 133) || (c =? 160) || (c =? 5760)
   || (8192 <=? c) && (c <=? 8202)
   || (c =? 8232) || (c =? 8233) || (c =? 8239) || (c =? 8287)
   || (c =? 12288))%N.

Fixpoint lstrip (s : pystr) : pystr :=
  match s with
  | c :: s' => if Py_UNICODE_ISSPACE c then lstrip s' else s
  | [] => []
  end.

Definition rstrip (s : pystr) : pystr := rev (lstrip (rev s)).

(** [s.strip()] with no argument. *)
Definition strip (s : pystr) : pystr := rstrip (lstrip s).

(** ** Exceptions *)

(** The exception classes the code tells apart ([except OSError] in the
    cleanup, [except Exception] in the handler).  [Exception] stands for any
    other subclass of [Exception]. *)
Inductive ExcClass := Exception | OSError | KeyError | OverflowError | ValueError.

(** An exception object: its class, [str(exc)] and the frames of its
    traceback. *)
Record PyExc := mkExc {
  exc_class : ExcClass;
  exc_str : pystr;
  exc_traceback : list pystr
}.

Inductive result (A : Type) : Type :=
| Ok (a : A)
| Raise (e : PyExc).
Arguments Ok {A} a.
Arguments Raise {A} e.

Definition rbind {A B} (r : result A) (k : A -> result B) : result B :=
  match r with Ok a => k a | Raise e => Raise e end.

(** ** Numbers *)

(** A Python number: [int] or [float]. *)
Inductive pynum :=
| PyInt (z : Z)
| PyFloat (f : float).

(** [PyLong_AsDouble]: the nearest double, [OverflowError] beyond the range
    (the frames are those of a conversion under the handler). *)
Definition PyLong_AsDouble (z : Z) : result float :=
  match binary_normalize prec emax z 0 false with
  | S754_infinity _ =>
      Raise (mkExc OverflowError (str "int too large to convert to float")
               [str "handle_transcribe"; str "segments_to_timeline_clips"])
  | sf => Ok (SF2Prim sf)
  end.

(** [a - b]: exact on two ints, binary64 subtraction on two floats, and on
    mixed operands the int is converted to a float first. *)
Definition py_sub (a b : pynum) : result pynum :=
  match a, b with
  | PyInt x, PyInt y => Ok (PyInt (x - y))
  | PyFloat x, PyFloat y => Ok (PyFloat (x - y))
  | PyInt x, PyFloat y => rbind (PyLong_AsDouble x) (fun x' => Ok (PyFloat (x' - y)))
  | PyFloat x, PyInt y => rbind (PyLong_AsDouble y) (fun y' => Ok (PyFloat (x - y')))
  end.

(** [x <= 0] against the int literal [0]; on a float the comparison with the
    exact value 0 is the IEEE one, so it is [False] on NaN. *)
Definition py_le_zero (x : pynum) : bool :=
  match x with
  | PyInt z => (z <=? 0)%Z
  | PyFloat f => (f <=? 0)%float
  end.

(** [num/den] rounded to the nearest integer, ties to even ([den > 0]). *)
Definition round_half_even (num den : Z) : Z :=
  let q := (num / den)%Z in
  match (2 * (num mod den) ?= den)%Z with
  | Lt => q
  | Gt => (q + 1)%Z
  | Eq => if Z.even q then q else (q + 1)%Z
  end.

(** The double nearest to the decimal [(-1)^s * n / p] ([_Py_dg_strtod] on
    the digit string), for [n >= 0] and [p > 0]. *)
Definition decimal_to_float (s : bool) (n p : Z) : float :=
  match n, p with
  | Zpos n', Zpos p' =>
      SF2Prim (SFdiv prec emax (S754_finite s n' 0) (S754_finite false p' 0))
  | _, _ => SF2Prim (S754_zero s)
  end.

(** [(int)((DBL_MANT_DIG - DBL_MIN_EXP) * 0.30103)] *)
Definition NDIGITS_MAX : Z := 323.

(** [float.__round__(x, ndigits)] for [ndigits >= 0]: NaN, infinities and
    zeros round to themselves; a finite [x = (-1)^s * m * 2^e] is rounded,
    ties to even on its exact value, to [ndigits] decimals ([_Py_dg_dtoa] in
    mode 3) and the decimal is converted back to the nearest double. *)
Definition float_round (x : float) (ndigits : N) : float :=
  if (NDIGITS_MAX <? Z.of_N ndigits)%Z then x
  else
    match Prim2SF x with
    | S754_finite s m e =>
        let p := (10 ^ Z.of_N ndigits)%Z in
        let n := if (0 <=? e)%Z then (Z.pos m * 2 ^ e * p)%Z
                 else round_half_even (Z.pos m * p) (2 ^ (- e)) in
        decimal_to_float s n p
    | _ => x
    end.

(** [round(x, ndigits)] for [ndigits >= 0]: an int rounds to itself. *)
Definition round (x : pynum) (ndigits : N) : pynum :=
  match x with
  | PyInt z => PyInt z
  | PyFloat f => PyFloat (float_round f ndigits)
  end.

(** ** utils.py *)

(** A segment dict: each of the keys ["start"], ["end"], ["text"] is present
    or absent. *)
Record Segment := mkSegment {
  seg_start : option pynum;
  seg_end : option pynum;
  seg_text : option pystr
}.

(** A clip dict [{"start": .., "duration": .., "subtitleText": ..}]. *)
Record TimelineClip := mkClip {
  start : pynum;
  duration : pynum;
  subtitleText : pystr
}.

(** [d.get(key, default)] on an optional field. *)
Definition dict_get {A} (field : option A) (default : A) : A :=
  match field with Some v => v | None => default end.

(** One iteration of the [for seg in segments] loop on the accumulator
    [clips]: [continue] leaves it unchanged, [clips.append] extends it. *)
Definition loop_body (clips : list TimelineClip) (seg : Segment)
  : result (list TimelineClip) :=
  let start := dict_get (seg_start seg) (PyInt 0) in
  let end_ := dict_get (seg_end seg) start in
  rbind (py_sub end_ start) (fun d =>
  let duration := round d 3 in
  if py_le_zero duration then Ok clips
  else
    let text := strip (dict_get (seg_text seg) []) in
    if negb (str_truthy text) then Ok clips
    else Ok (clips ++ [mkClip (round start 3) duration text])).

Fixpoint for_loop (segments : list Segment) (clips : list TimelineClip)
  : result (list TimelineClip) :=
  match segments with
  | [] => Ok clips
  | seg :: rest => rbind (loop_body clips seg) (for_loop rest)
  end.

Definition segments_to_timeline_clips (segments : list Segment)
  : result (list TimelineClip) :=
  for_loop segments [].

(** ** The world of the handlers *)

(** The module-level handle [whisper_service._model] once loaded. *)
Inductive WhisperModel := LoadedModel (name : pystr).

(** A file operation of the service itself, as the operating system was
    asked: a file created by [tempfile], an upload saved (or not), a file
    unlinked (or not). *)
Inductive FileOp :=
| Created (path : pystr)
| Saved (path : pystr) (bytes : list N)
| SaveFailed (path : pystr)
| Unlinked (path : pystr)
| UnlinkFailed (path : pystr).

(** What a request can observe and change: the files by path (contents as
    bytes) other than Whisper's own cache, the cached model, what was
    printed to stdout, the tracebacks printed to stderr (the progress bars
    Whisper draws there are not recorded), the files of Whisper's cache (the
    downloaded checkpoints), and the file operations of the service so far,
    oldest first. *)
Record World := mkWorld {
  fs : gmap pystr (list N);
  _model : option WhisperModel;
  stdout : list pystr;
  stderr : list PyExc;
  whisper_cache : gmap pystr (list N);
  file_ops : list FileOp
}.

(** The result dict of Whisper's [model.transcribe]: the key ["segments"]
    is present or absent. *)
Record WhisperResult := mkWhisperResult {
  result_segments : option (list Segment)
}.

(** The behaviour, during one request, of what lies outside the repository:
    the temporary directory, whether creating a file there fails (with the
    message of the [OSError]), the names [tempfile] draws (from letters,
    digits and the underscore), whether saving the upload, loading the model
    or unlinking fails, the external model's answer for a path, the bytes
    found there and a language option, the checkpoint files that loading the
    model downloads into Whisper's cache (none when they are there already),
    and what the external model prints to stdout while it transcribes (with
    [verbose=False], the language it detects). *)
Record Env := mkEnv {
  tempdir : pystr;
  open_error : option pystr;
  tmp_names : list pystr;
  save_raises : option PyExc;
  load_model_raises : option PyExc;
  model_transcribe : pystr -> option (list N) -> option pystr -> result WhisperResult;
  unlink_error : option pystr;
  load_model_downloads : gmap pystr (list N);
  model_prints : pystr -> option (list N) -> option pystr -> list pystr
}.

(** State-and-exception monad: a computation ends in a value or a raised
    exception, and in a new world either way. *)
Definition M (A : Type) : Type := World -> result A * World.

Definition ret {A} (a : A) : M A := fun w => (Ok a, w).

Definition raise {A} (e : PyExc) : M A := fun w => (Raise e, w).

Definition bind {A B} (m : M A) (k : A -> M B) : M B :=
  fun w => match m w with
           | (Ok a, w') => k a w'
           | (Raise e, w') => (Raise e, w')
           end.

Notation "x <- m ;; k" := (bind m (fun x => k))
  (at level 100, m at next level, right associativity).
Notation "m ;;; k" := (bind m (fun _ => k))
  (at level 100, right associativity).

Definition lift {A} (r : result A) : M A := fun w => (r, w).

(** [try: body except Exception as exc: handler exc] *)
Definition try_except {A} (body : M A) (handler : PyExc -> M A) : M A :=
  fun w => match body w with
           | (Ok a, w') => (Ok a, w')
           | (Raise e, w') => handler e w'
           end.

(** [try: body except OSError: handler] *)
Definition try_except_OSError {A} (body : M A) (handler : M A) : M A :=
  fun w => match body w with
           | (Ok a, w') => (Ok a, w')
           | (Raise e, w') =>
               match exc_class e with
               | OSError => handler w'
               | _ => (Raise e, w')
               end
           end.

(** [try: body finally: final]: [final] runs on every exit of [body]; its
    own exception, if any, replaces the outcome of [body]. *)
Definition try_finally {A} (body : M A) (final : M unit) : M A :=
  fun w => let '(r, w') := body w in
           match final w' with
           | (Ok _, w'') => (r, w'')
           | (Raise e, w'') => (Raise e, w'')
           end.

Definition print (line : pystr) : M unit :=
  fun w => (Ok tt, mkWorld (fs w) (_model w) (stdout w ++ [line]) (stderr w)
                     (whisper_cache w) (file_ops w)).

(** [traceback.print_exc()] in the handler of [exc]. *)
Definition print_exc (exc : PyExc) : M unit :=
  fun w => (Ok tt, mkWorld (fs w) (_model w) (stdout w) (stderr w ++ [exc])
                     (whisper_cache w) (file_ops w)).

Definition set_fs (f : gmap pystr (list N) -> gmap pystr (list N)) : M unit :=
  fun w => (Ok tt, mkWorld (f (fs w)) (_model w) (stdout w) (stderr w)
                     (whisper_cache w) (file_ops w)).

(** Records a file operation. *)
Definition log_op (op : FileOp) : M unit :=
  fun w => (Ok tt, mkWorld (fs w) (_model w) (stdout w) (stderr w)
                     (whisper_cache w) (file_ops w ++ [op])).

(** [str(n)] of a length. *)
Definition str_of_nat (n : nat) : pystr :=
  str (DecimalString.NilZero.string_of_uint (Nat.to_uint n)).

(** ** The standard library calls of main.py *)

(** [p.rfind(c)]: the last index of [c] in [p], or [-1]. *)
Fixpoint rfind_from (c : N) (p : pystr) (i : Z) : Z :=
  match p with
  | [] => (-1)%Z
  | x :: p' =>
      let j := rfind_from c p' (i + 1)%Z in
      if (0 <=? j)%Z then j else if (x =? c)%N then i else (-1)%Z
  end.

Definition rfind (p : pystr) (c : N) : Z := rfind_from c p 0.

(** [p[i:j]] for [0 <= i]. *)
Definition slice (p : pystr) (i j : Z) : pystr :=
  take (Z.to_nat (j - i)) (drop (Z.to_nat i) p).

(** [os.path.splitext(p)[1]] on POSIX ([genericpath._splitext] with
    separator [/] and extension separator [.]): the text from the last dot,
    when that dot comes after the last separator and some character between
    the two is not a dot. *)
Definition splitext_ext (p : pystr) : pystr :=
  let sepIndex := rfind p 47 in
  let dotIndex := rfind p 46 in
  if (sepIndex <? dotIndex)%Z then
    let filenameIndex := (sepIndex + 1)%Z in
    if existsb (fun c => negb (c =? 46)%N) (slice p filenameIndex dotIndex)
    then drop (Z.to_nat dotIndex) p
    else []
  else [].

(** [os.path.join(a, b)] on POSIX for a relative [b]. *)
Definition path_join (a b : pystr) : pystr :=
  match last a with
  | None => b
  | Some c => if (c =? 47)%N then a ++ b else a ++ [47%N] ++ b
  end.

(** [tempfile.TMP_MAX], which is [os.TMP_MAX] (the value of glibc). *)
Definition TMP_MAX : N := 238328.

(** [tempfile._mkstemp_inner]: the first candidate name whose file does not
    exist yet ([O_EXCL]). *)
Fixpoint _mkstemp_inner (dir pre suf : pystr) (names : list pystr)
    (files : gmap pystr (list N)) : option pystr :=
  match names with
  | [] => None
  | name :: rest =>
      let file := path_join dir (pre ++ name ++ suf) in
      match files !! file with
      | Some _ => _mkstemp_inner dir pre suf rest files
      | None => Some file
      end
  end.

(** The path holds a NUL, on which [os.open] raises [ValueError]. *)
Definition has_NUL (path : pystr) : bool := existsb (N.eqb 0) path.

(** [tempfile.NamedTemporaryFile(delete=False, suffix=suffix)]: creates an
    empty file under a name no file had and returns that name.  The directory
    and the suffix are part of every candidate path, so a NUL in either makes
    the first [os.open] raise. *)
Definition NamedTemporaryFile (env : Env) (suffix : pystr) : M pystr :=
  fun w =>
    if has_NUL (tempdir env ++ suffix)
    then (Raise (mkExc ValueError (str "embedded null byte") []), w)
    else
      match open_error env with
      | Some msg => (Raise (mkExc OSError msg []), w)
      | None =>
          match _mkstemp_inner (tempdir env) (str "tmp") suffix
                  (take (N.to_nat TMP_MAX) (tmp_names env)) (fs w) with
          | Some name =>
              (set_fs (insert name []) ;;; log_op (Created name) ;;; ret name) w
          | None =>
              (Raise (mkExc OSError
                        (str "[Errno 17] No usable temporary file name found") []), w)
          end
      end.

(** [FileStorage]: the uploaded part, its client-supplied file name (which
    may be [None]) and its bytes. *)
Record FileStorage := mkFileStorage {
  filename : option pystr;
  stream : list N
}.

(** [uploaded.save(dst)] *)
Definition save (env : Env) (uploaded : FileStorage) (dst : pystr) : M unit :=
  match save_raises env with
  | Some e => log_op (SaveFailed dst) ;;; raise e
  | None => set_fs (insert dst (stream uploaded)) ;;; log_op (Saved dst (stream uploaded))
  end.

(** [os.unlink(path)] *)
Definition unlink (env : Env) (path : pystr) : M unit :=
  fun w =>
    match fs w !! path with
    | None =>
        (log_op (UnlinkFailed path) ;;;
         raise (mkExc OSError (str "[Errno 2] No such file or directory") [])) w
    | Some _ =>
        match unlink_error env with
        | Some msg => (log_op (UnlinkFailed path) ;;; raise (mkExc OSError msg [])) w
        | None => (set_fs (delete path) ;;; log_op (Unlinked path)) w
        end
    end.

(** ** whisper_service.py *)

Definition MODEL_NAME : pystr := str "medium".

Definition set_model (m : WhisperModel) : M unit :=
  fun w => (Ok tt, mkWorld (fs w) (Some m) (stdout w) (stderr w)
                     (whisper_cache w) (file_ops w)).

(** [whisper.load_model(name)]: what it downloads goes into Whisper's
    cache, whether or not loading then succeeds. *)
Definition load_model (env : Env) (name : pystr) : M WhisperModel :=
  fun w =>
    let w' := mkWorld (fs w) (_model w) (stdout w) (stderr w)
                (load_model_downloads env ∪ whisper_cache w) (file_ops w) in
    match load_model_raises env with
    | Some e => (Raise e, w')
    | None => (Ok (LoadedModel name), w')
    end.

Definition get_model (env : Env) : M WhisperModel :=
  fun w =>
    match _model w with
    | Some m => (Ok m, w)
    | None =>
        (print (str "[whisper] Loading '" ++ MODEL_NAME
                ++ str "' model (first run downloads ~460 MB)" ++ [8230%N]) ;;;
         m <- load_model env MODEL_NAME ;;
         set_model m ;;;
         print (str "[whisper] Model loaded.") ;;;
         ret m) w
    end.

(** [seg[key]]: [KeyError] on an absent key. *)
Definition subscript {A} (field : option A) (key : string) : result A :=
  match field with
  | Some v => Ok v
  | None => Raise (mkExc KeyError (str "'" ++ str key ++ str "'")
                     [str "handle_transcribe"; str "transcribe"])
  end.

(** One iteration of the loop over [result.get("segments", [])]. *)
Definition transcribe_body (segments : list Segment) (seg : Segment)
  : result (list Segment) :=
  let text := strip (dict_get (seg_text seg) []) in
  if negb (str_truthy text) then Ok segments
  else
    rbind (subscript (seg_start seg) "start") (fun s =>
    rbind (subscript (seg_end seg) "end") (fun e =>
    Ok (segments ++ [mkSegment (Some (round s 3)) (Some (round e 3)) (Some text)]))).

Fixpoint transcribe_loop (raw : list Segment) (segments : list Segment)
  : result (list Segment) :=
  match raw with
  | [] => Ok segments
  | seg :: rest => rbind (transcribe_body segments seg) (transcribe_loop rest)
  end.

(** [transcribe(audio_path, language=language)]; of the options only
    ["language"] varies, set when [language] is truthy.  With [verbose=False]
    the external model still prints. *)
Definition transcribe (env : Env) (audio_path : pystr) (language : option pystr)
  : M (list Segment) :=
  model <- get_model env ;;
  let language_option :=
    match language with
    | Some l => if str_truthy l then Some l else None
    | None => None
    end in
  result <- (fun w =>
     (model_transcribe env audio_path (fs w !! audio_path) language_option,
      mkWorld (fs w) (_model w)
        (stdout w ++ model_prints env audio_path (fs w !! audio_path) language_option)
        (stderr w) (whisper_cache w) (file_ops w))) ;;
  lift (transcribe_loop (dict_get (result_segments result) []) []).

(** ** main.py *)

(** The three shapes of dict the handlers pass to [jsonify]. *)
Inductive Body :=
| ErrorBody (error : pystr)
| StatusBody (status : pystr)
| ClipsBody (clips : list TimelineClip) (segmentCount : Z).

Record Response := mkResponse {
  status_code : Z;
  body : Body
}.

(** [sys.get_int_max_str_digits()]: an int of more decimal digits has no
    decimal representation. *)
Definition MAX_STR_DIGITS : Z := 4300.

Definition int_repr_fails (x : pynum) : bool :=
  match x with
  | PyInt z => (10 ^ MAX_STR_DIGITS <=? Z.abs z)%Z
  | PyFloat _ => false
  end.

(** [jsonify(body)]: serialising raises [ValueError] on an int of more than
    4300 digits; floats, NaN and the infinities included, and strings are
    serialised. *)
Definition jsonify (body : Body) : result Body :=
  match body with
  | ClipsBody clips segmentCount =>
      if existsb (fun c => int_repr_fails (start c) || int_repr_fails (duration c)) clips
         || int_repr_fails (PyInt segmentCount)
      then Raise (mkExc ValueError
                    (str "Exceeds the limit (4300 digits) for integer string conversion; use sys.set_int_max_str_digits() to increase the limit")
                    [str "handle_transcribe"; str "jsonify"])
      else Ok body
  | _ => Ok body
  end.

(** The parsed request: [request.files.get("file")] and
    [request.form.get("language")]. *)
Record Request := mkRequest {
  files_file : option FileStorage;
  form_language : option pystr
}.

(** [GET /health] *)
Definition health : M Response :=
  ret (mkResponse 200 (StatusBody (str "ok"))).

(** [x or None] on an optional [str]. *)
Definition or_None (x : option pystr) : option pystr :=
  match x with
  | Some l => if str_truthy l then Some l else None
  | None => None
  end.

(** The [finally] clause: [os.unlink(tmp.name)], an [OSError] passed over. *)
Definition cleanup (env : Env) (tmp_name : pystr) : M unit :=
  try_except_OSError (unlink env tmp_name) (ret tt).

(** The [try] clause ([tmp.close()] changes nothing that is modelled; of
    the calls of [jsonify] only this one, on numbers, can raise). *)
Definition process (env : Env) (request : Request) (uploaded : FileStorage)
    (suffix tmp_name : pystr) : M Response :=
  save env uploaded tmp_name ;;;
  let language := or_None (form_language request) in
  print (str "[transcribe] Processing: " ++ dict_get (filename uploaded) []
         ++ str " (" ++ suffix ++ str ")") ;;;
  segments <- transcribe env tmp_name language ;;
  clips <- lift (segments_to_timeline_clips segments) ;;
  print (str "[transcribe] Done " ++ [8212%N] ++ str " "
         ++ str_of_nat (length clips) ++ str " subtitle clip(s) generated.") ;;;
  body <- lift (jsonify (ClipsBody clips (Z.of_nat (length clips)))) ;;
  ret (mkResponse 200 body).

(** The [except Exception as exc] clause. *)
Definition on_exception (exc : PyExc) : M Response :=
  print_exc exc ;;;
  ret (mkResponse 500 (ErrorBody (str "Transcription failed: " ++ exc_str exc))).

(** [os.path.splitext(uploaded.filename)[1] or ".mp4"] *)
Definition upload_suffix (uploaded : FileStorage) : pystr :=
  let ext := splitext_ext (dict_get (filename uploaded) []) in
  if str_truthy ext then ext else str ".mp4".

(** [POST /transcribe].  A raised result is an exception that leaves the
    view function. *)
Definition handle_transcribe (env : Env) (request : Request) : M Response :=
  match files_file request with
  | None =>
      ret (mkResponse 400
             (ErrorBody (str "No file provided. Send a file with key 'file'.")))
  | Some uploaded =>
      if negb (str_truthy (dict_get (filename uploaded) []))
      then ret (mkResponse 400 (ErrorBody (str "Empty filename.")))
      else
        let suffix := upload_suffix uploaded in
        tmp_name <- NamedTemporaryFile env suffix ;;
        try_finally
          (try_except (process env request uploaded suffix tmp_name) on_exception)
          (cleanup env tmp_name)
  end.

(** The two routes of the application. *)
Inductive Route :=
| GET_health
| POST_transcribe (env : Env) (request : Request).

Definition serve (r : Route) : M Response :=
  match r with
  | GET_health => health
  | POST_transcribe env request => handle_transcribe env request
  end.

(** The world after a sequence of requests. *)
Definition serve_all (history : list Route) (w : World) : World :=
  foldl (fun w r => snd (serve r w)) w history.

(** ** Vocabulary of the properties *)

(** The converter as section 4.2 of the specification words it: what one
    segment contributes, [None] for a skipped one.  Absent keys and a failing
    subtraction, on which that section is silent, are as in the code. *)
Definition spec_clip (seg : Segment) : result (option TimelineClip) :=
  let start_in := dict_get (seg_start seg) (PyInt 0) in
  let end_in := dict_get (seg_end seg) start_in in
  rbind (py_sub end_in start_in) (fun d =>
  let duration := round d 3 in
  let text := strip (dict_get (seg_text seg) []) in
  if py_le_zero duration then Ok None
  else
    match text with
    | [] => Ok None
    | _ :: _ => Ok (Some (mkClip (round start_in 3) duration text))
    end).

(** Every element in input order, stopping at the first exception. *)
Fixpoint traverse {A B} (f : A -> result B) (l : list A) : result (list B) :=
  match l with
  | [] => Ok []
  | x :: l' => rbind (f x) (fun y => rbind (traverse f l') (fun ys => Ok (y :: ys)))
  end.

(** "For each input segment ..., order preserved from input". *)
Definition spec_convert (segments : list Segment) : result (list TimelineClip) :=
  rbind (traverse spec_clip segments) (fun contributions => Ok (omap id contributions)).

(** The loop read as a relation between the segments left, the accumulator
    and the outcome of the call. *)
Inductive loop_run : list Segment -> list TimelineClip
                     -> result (list TimelineClip) -> Prop :=
| run_return clips :
    loop_run [] clips (Ok clips)
| run_iterate seg rest clips clips' out :
    loop_body clips seg = Ok clips' ->
    loop_run rest clips' out ->
    loop_run (seg :: rest) clips out
| run_raise seg rest clips e :
    loop_body clips seg = Raise e ->
    loop_run (seg :: rest) clips (Raise e).

(** A call of the converter on [segments] ends in [out]. *)
Definition converts (segments : list Segment) (out : result (list TimelineClip)) : Prop :=
  loop_run segments [] out.

(** [0 < x] *)
Definition py_gt_zero (x : pynum) : bool :=
  match x with
  | PyInt z => (0 <? z)%Z
  | PyFloat f => (0 <? f)%float
  end.

Definition num_is_nan (x : pynum) : bool :=
  match x with
  | PyInt _ => false
  | PyFloat f => match Prim2SF f with S754_nan => true | _ => false end
  end.

(** An int, or a float that is neither NaN nor an infinity. *)
Definition num_is_finite (x : pynum) : bool :=
  match x with
  | PyInt _ => true
  | PyFloat f =>
      match Prim2SF f with
      | S754_zero _ | S754_finite _ _ _ => true
      | S754_infinity _ | S754_nan => false
      end
  end.

(** A number with at most three decimals: an int, or the double nearest to
    some [n/1000]; NaN and the infinities, which [round] returns unchanged,
    are the remaining case. *)
Definition three_decimals (x : pynum) : Prop :=
  match x with
  | PyInt _ => True
  | PyFloat f =>
      num_is_finite x = false \/ exists (s : bool) (n : Z), f = decimal_to_float s n 1000
  end.

(** What the segment contributes to a clip: its start with the default, and
    the difference [end - start] with both defaults. *)
Definition start_of (seg : Segment) : pynum := dict_get (seg_start seg) (PyInt 0).

Definition end_of (seg : Segment) : pynum := dict_get (seg_end seg) (start_of seg).

(** The scenario of the docstring and of the specification. *)
Definition hello_segment : Segment :=
  mkSegment (Some (PyFloat 1.2)) (Some (PyFloat 3.7)) (Some (str " Hello world ")).

Definition hello_clip : TimelineClip :=
  mkClip (PyFloat 1.2) (PyFloat 2.5) (str "Hello world").

(** A segment whose start is NaN, and one without an end whose start is
    infinite. *)
Definition nan_segment : Segment :=
  mkSegment (Some (PyFloat nan)) (Some (PyFloat 1)) (Some (str "x")).

Definition endless_segment : Segment :=
  mkSegment (Some (PyFloat infinity)) None (Some (str "x")).

(** A segment of zero duration, and one without a start. *)
Definition still_segment : Segment :=
  mkSegment (Some (PyFloat 5)) (Some (PyFloat 5)) (Some (str "x")).

Definition startless_segment : Segment :=
  mkSegment None (Some (PyFloat 2.5)) (Some (str "late")).


(** A request passes validation with the upload [uploaded]. *)
Definition validated (request : Request) (uploaded : FileStorage) : Prop :=
  files_file request = Some uploaded
  /\ str_truthy (dict_get (filename uploaded) []) = true.

(** Sample worlds, environments and requests. *)
Definition fresh_world : World := mkWorld ∅ None [] [] ∅ [].

Definition busy_world : World :=
  mkWorld {[ str "/tmp/tmpk3x9.mov" := [1%N; 2%N] ]} (Some (LoadedModel MODEL_NAME))
          [str "earlier"] [] ∅ [].

(** The checkpoint a first load downloads, and what the model prints when
    it has to detect the language. *)
Definition checkpoint : gmap pystr (list N) :=
  {[ str "~/.cache/whisper/medium.pt" := [80%N; 75%N] ]}.

Definition whisper_prints (path : pystr) (bytes : option (list N))
    (language : option pystr) : list pystr :=
  match language with
  | None => [str "Detected language: English"]
  | Some _ => []
  end.

(** The model hears two segments; the second has no duration. *)
Definition two_segments : WhisperResult :=
  mkWhisperResult (Some [hello_segment; still_segment]).

Definition good_env : Env :=
  mkEnv (str "/tmp") None [str "k3x9"; str "q7ab"] None None
        (fun _ _ _ => Ok two_segments) None checkpoint whisper_prints.

Definition out_of_memory : PyExc :=
  mkExc Exception (str "CUDA out of memory")
        [str "handle_transcribe"; str "transcribe"; str "model.transcribe"].

Definition failing_model_env : Env :=
  mkEnv (str "/tmp") None [str "k3x9"; str "q7ab"] None None
        (fun _ _ _ => Raise out_of_memory) (Some (str "[Errno 13] Permission denied"))
        checkpoint whisper_prints.

Definition disk_full_env : Env :=
  mkEnv (str "/tmp") (Some (str "[Errno 28] No space left on device"))
        [str "k3x9"] None None (fun _ _ _ => Ok two_segments) None
        checkpoint whisper_prints.

Definition clip_upload : FileStorage :=
  mkFileStorage (Some (str "holiday.clip.mov")) [82%N; 73%N; 70%N; 70%N].

Definition upload_request : Request := mkRequest (Some clip_upload) (Some (str "en")).

Definition no_file_request : Request := mkRequest None None.

Definition unnamed_request : Request :=
  mkRequest (Some (mkFileStorage (Some []) [])) None.

(** ** Vocabulary of the further properties *)

(** Both numbers are ints, or both are floats. *)
Definition same_kind (a b : pynum) : bool :=
  match a, b with
  | PyInt _, PyInt _ | PyFloat _, PyFloat _ => true
  | _, _ => false
  end.

(** The exception of [PyLong_AsDouble]. *)
Definition int_too_large : PyExc :=
  mkExc OverflowError (str "int too large to convert to float")
        [str "handle_transcribe"; str "segments_to_timeline_clips"].

(** Neither the first nor the last code point is white space. *)
Definition trimmed (s : pystr) : Prop :=
  (forall c, head s = Some c -> Py_UNICODE_ISSPACE c = false)
  /\ (forall c, last s = Some c -> Py_UNICODE_ISSPACE c = false).

(** A raw segment that the loop of [transcribe] can take: its text is blank,
    or it has both a start and an end. *)
Definition transcribable (seg : Segment) : Prop :=
  strip (dict_get (seg_text seg) []) = []
  \/ (is_Some (seg_start seg) /\ is_Some (seg_end seg)).

(** The segment [seg] is what the loop of [transcribe] makes of the raw
    segment [raw]: both bounds rounded, the text trimmed and not empty. *)
Definition rounded_from (raw seg : Segment) : Prop :=
  exists s e,
    seg_start raw = Some s /\ seg_end raw = Some e
    /\ strip (dict_get (seg_text raw) []) <> []
    /\ seg = mkSegment (Some (round s 3)) (Some (round e 3))
                       (Some (strip (dict_get (seg_text raw) []))).

(** The bounds a segment has are floats. *)
Definition float_bounds (seg : Segment) : Prop :=
  (forall x, seg_start seg = Some x -> exists f, x = PyFloat f)
  /\ (forall x, seg_end seg = Some x -> exists f, x = PyFloat f).

(** The same environment with another external model. *)
Definition with_model_transcribe (env : Env)
    (model : pystr -> option (list N) -> option pystr -> result WhisperResult) : Env :=
  mkEnv (tempdir env) (open_error env) (tmp_names env) (save_raises env)
        (load_model_raises env) model (unlink_error env)
        (load_model_downloads env) (model_prints env).

(** Every [os.unlink] of the requests of a history succeeds. *)
Definition unlink_succeeds (r : Route) : Prop :=
  match r with
  | GET_health => True
  | POST_transcribe env _ => unlink_error env = None
  end.

(** More samples: a segment mixing an int and a float, raw segments as the
    model may return them, and an environment in which the upload cannot be
    saved. *)
Definition padded_segment : Segment :=
  mkSegment (Some (PyInt 2)) (Some (PyInt 5)) (Some ([12288%N] ++ str "tea time" ++ [10%N])).

Definition blank_raw_segment : Segment := mkSegment None None (Some (str "  ")).

Definition endless_raw_segment : Segment :=
  mkSegment (Some (PyFloat 0.5)) None (Some (str "cut off")).

Definition keyless_raw_segment : Segment := mkSegment None None (Some (str "lost")).

Definition read_only_env : Env :=
  mkEnv (str "/tmp") None [str "k3x9"; str "q7ab"]
        (Some (mkExc OSError (str "[Errno 30] Read-only file system") []))
        None (fun _ _ _ => Ok two_segments) None checkpoint whisper_prints.

(** A raw segment contributes to the result of [transcribe]: its trimmed
    text is not empty. *)
Definition non_blank (seg : Segment) : bool :=
  str_truthy (strip (dict_get (seg_text seg) [])).



Definition huge_blank_segment : Segment :=
  mkSegment (Some (PyInt (10 ^ 400))) (Some (PyFloat 1.5)) (Some (str "  ")).

(** ** The converter *)

(** Splits a conjunction into its parts. *)
Ltac split_conj := repeat match goal with |- _ /\ _ => split end.

Lemma rbind_Ok {A B} (r : result A) (k : A -> result B) (b : B) :
  rbind r k = Ok b -> exists a, r = Ok a /\ k a = Ok b.
Proof. destruct r as [a|e]; simpl; [eauto | discriminate]. Qed.

Lemma str_truthy_nonempty (s : pystr) : str_truthy s = true <-> s <> [].
Proof. destruct s; simpl; split; congruence. Qed.

(** One iteration appends what the specification's per-segment rule yields. *)
Lemma loop_body_spec_clip clips seg :
  loop_body clips seg =
  rbind (spec_clip seg) (fun o => Ok (clips ++ option_list o)).
Proof.
  unfold loop_body, spec_clip.
  destruct (py_sub _ _) as [d|e]; simpl; [|reflexivity].
  destruct (py_le_zero (round d 3)); simpl.
  - by rewrite app_nil_r.
  - destruct (strip _) as [|c text]; simpl; [by rewrite app_nil_r | reflexivity].
Qed.

Lemma for_loop_spec segments : forall clips,
  for_loop segments clips =
  rbind (spec_convert segments) (fun cs => Ok (clips ++ cs)).
Proof.
  unfold spec_convert.
  induction segments as [|seg rest IH]; intros clips; simpl.
  - by rewrite app_nil_r.
  - rewrite loop_body_spec_clip.
    destruct (spec_clip seg) as [o|e]; simpl; [|reflexivity].
    rewrite IH.
    destruct (traverse spec_clip rest) as [os|e]; simpl; [|reflexivity].
    destruct o as [c|]; simpl; [|by rewrite app_nil_r].
    by rewrite <- app_assoc.
Qed.

Lemma converter_refines_spec segments :
  segments_to_timeline_clips segments = spec_convert segments.
Proof.
  unfold segments_to_timeline_clips. rewrite for_loop_spec.
  by destruct (spec_convert segments).
Qed.

(** The clips are what the kept segments contribute, one for one and in the
    order of the input. *)
Lemma spec_convert_sublist segments : forall clips,
  spec_convert segments = Ok clips ->
  exists kept, sublist kept segments
    /\ Forall2 (fun seg c => spec_clip seg = Ok (Some c)) kept clips.
Proof.
  unfold spec_convert.
  induction segments as [|seg rest IH]; intros clips H; simpl in H.
  - injection H as <-. exists []. split; constructor.
  - destruct (spec_clip seg) as [o|e] eqn:Hseg; simpl in H; [|discriminate].
    destruct (traverse spec_clip rest) as [os|e] eqn:Hrest; simpl in H; [|discriminate].
    destruct (IH (omap id os) eq_refl) as (kept & Hsub & Hall).
    injection H as <-. destruct o as [c|]; simpl.
    + exists (seg :: kept). split; [by apply sublist_skip | by constructor].
    + exists kept. split; [by apply sublist_cons | done].
Qed.

(** C1: the converter goes through the segments in input order and applies
    to each the rule of the specification -- duration [round(end - start, 3)],
    skip when [duration <= 0], trim the text, skip when it is empty, else emit
    [{start: round(start, 3), duration, subtitleText: text}] -- and the clips
    of a returning call are the contributions of a sublist of the segments,
    in the same order. *)
Theorem C1_converter_follows_spec (segments : list Segment) :
  segments_to_timeline_clips segments = spec_convert segments
  /\ forall clips, segments_to_timeline_clips segments = Ok clips ->
       exists kept, sublist kept segments
         /\ Forall2 (fun seg c => spec_clip seg = Ok (Some c)) kept clips.
Proof.
  split; [apply converter_refines_spec|].
  intros clips H. rewrite converter_refines_spec in H.
  by apply spec_convert_sublist.
Qed.

Lemma C1_witness :
  segments_to_timeline_clips [still_segment; hello_segment; startless_segment]
    = Ok [hello_clip; mkClip (PyInt 0) (PyFloat 2.5) (str "late")]
  /\ exists kept, sublist kept [still_segment; hello_segment; startless_segment]
       /\ Forall2 (fun seg c => spec_clip seg = Ok (Some c)) kept
            [hello_clip; mkClip (PyInt 0) (PyFloat 2.5) (str "late")].
Proof.
  split; [vm_compute; reflexivity|].
  apply (proj2 (C1_converter_follows_spec
                  [still_segment; hello_segment; startless_segment])).
  vm_compute; reflexivity.
Defined.

(** What an emitted clip says about the segment it comes from. *)
Lemma spec_clip_Some seg c :
  spec_clip seg = Ok (Some c) ->
  exists d, py_sub (end_of seg) (start_of seg) = Ok d
    /\ py_le_zero (round d 3) = false
    /\ strip (dict_get (seg_text seg) []) <> []
    /\ c = mkClip (round (start_of seg) 3) (round d 3)
                  (strip (dict_get (seg_text seg) [])).
Proof.
  unfold spec_clip, end_of, start_of.
  destruct (py_sub _ _) as [d|e]; simpl; [|discriminate].
  destruct (py_le_zero (round d 3)) eqn:Hle; [discriminate|].
  destruct (strip _) as [|ch text] eqn:Htext; [discriminate|].
  intros [= <-]. exists d. repeat split; congruence.
Qed.

Lemma emitted_clips_origin segments clips :
  segments_to_timeline_clips segments = Ok clips ->
  Forall (fun c => exists seg, seg ∈ segments /\ spec_clip seg = Ok (Some c)) clips.
Proof.
  intros H. rewrite converter_refines_spec in H.
  destruct (spec_convert_sublist _ _ H) as (kept & Hsub & Hall).
  apply sublist_subseteq in Hsub. clear H.
  induction Hall as [|seg c kept' clips' Hc _ IH]; constructor.
  - exists seg. split; [set_solver | done].
  - apply IH. set_solver.
Qed.

(** On floats, "not [<= 0]" and "[> 0]" differ on NaN only. *)
Lemma not_le_zero_gt_zero x :
  py_le_zero x = false -> num_is_nan x = false -> py_gt_zero x = true.
Proof.
  destruct x as [z|f]; simpl.
  - intros H _. apply Z.leb_gt in H. by apply Z.ltb_lt.
  - rewrite leb_spec, ltb_spec. unfold SFleb, SFltb.
    replace (Prim2SF 0) with (S754_zero false) by reflexivity.
    by destruct (Prim2SF f) as [s|s| |s m e]; simpl; try destruct s.
Qed.

(** The two drop scenarios of the specification. *)
Example zero_duration_dropped :
  segments_to_timeline_clips [still_segment] = Ok [].
Proof. vm_compute. reflexivity. Qed.

Example blank_text_dropped :
  segments_to_timeline_clips
    [mkSegment (Some (PyInt 0)) (Some (PyInt 1)) (Some (str "   "))] = Ok [].
Proof. vm_compute. reflexivity. Qed.

(** C2, as the code has it: every emitted clip has a duration that is not [<= 0] --
    so a duration [> 0] unless it is NaN -- and a non-empty subtitleText; a
    segment whose duration is computed ([end - start] does not raise) and is
    [<= 0], or whose duration is computed and whose trimmed text is empty,
    leaves the clips as they were and raises nothing; and only such a segment
    does. *)
Theorem C2_emitted_clips_invariant (segments : list Segment)
    (clips : list TimelineClip) :
  segments_to_timeline_clips segments = Ok clips ->
  Forall (fun c => py_le_zero (duration c) = false
                   /\ (num_is_nan (duration c) = false -> py_gt_zero (duration c) = true)
                   /\ subtitleText c <> []) clips
  /\ (forall seg d acc,
        py_sub (end_of seg) (start_of seg) = Ok d ->
        py_le_zero (round d 3) = true \/ strip (dict_get (seg_text seg) []) = [] ->
        loop_body acc seg = Ok acc)
  /\ (forall seg acc,
        loop_body acc seg = Ok acc ->
        exists d, py_sub (end_of seg) (start_of seg) = Ok d
          /\ (py_le_zero (round d 3) = true
              \/ strip (dict_get (seg_text seg) []) = [])).
Proof.
  intros H. split_conj.
  - eapply Forall_impl; [by apply emitted_clips_origin|].
    intros c (seg & _ & Hc). simpl in Hc.
    destruct (spec_clip_Some _ _ Hc) as (d & _ & Hle & Htext & ->); simpl.
    split; [done|]. split; [by apply not_le_zero_gt_zero | done].
  - intros seg d acc Hd Hdrop. unfold loop_body.
    unfold end_of, start_of in Hd. rewrite Hd. simpl.
    destruct (py_le_zero (round d 3)); [done|].
    destruct Hdrop as [?| ->]; done.
  - intros seg acc. unfold loop_body, end_of, start_of.
    destruct (py_sub _ _) as [d|exc]; simpl; [|discriminate].
    destruct (py_le_zero (round d 3)) eqn:Hle; [intros _; exists d; by auto|].
    destruct (strip (dict_get (seg_text seg) [])) as [|c text]; simpl;
      [intros _; exists d; by auto|].
    intros [= Hacc]. apply (f_equal length) in Hacc.
    rewrite length_app in Hacc. simpl in Hacc. lia.
Qed.

Lemma C2_witness :
  Forall (fun c => py_le_zero (duration c) = false
                   /\ (num_is_nan (duration c) = false -> py_gt_zero (duration c) = true)
                   /\ subtitleText c <> []) [hello_clip]
  /\ forall seg d acc,
       py_sub (end_of seg) (start_of seg) = Ok d ->
       py_le_zero (round d 3) = true \/ strip (dict_get (seg_text seg) []) = [] ->
       loop_body acc seg = Ok acc.
Proof.
  destruct (C2_emitted_clips_invariant [still_segment; hello_segment] [hello_clip])
    as (Hclips & Hdrop & _); [vm_compute; reflexivity|].
  split; [exact Hclips | exact Hdrop].
Defined.

(** C2 as worded does not hold: a segment whose start is NaN is emitted with
    duration NaN, and NaN is not [> 0]; and a segment whose text is blank is
    not dropped but ends the conversion with an [OverflowError] when its
    start is an int no float can hold and its end is a float. *)
Lemma C2_counterexample :
  (segments_to_timeline_clips [nan_segment]
     = Ok [mkClip (PyFloat nan) (PyFloat nan) (str "x")]
   /\ py_gt_zero (duration (mkClip (PyFloat nan) (PyFloat nan) (str "x"))) = false)
  /\ (strip (dict_get (seg_text huge_blank_segment) []) = []
      /\ segments_to_timeline_clips [huge_blank_segment] = Raise int_too_large).
Proof. split_conj; vm_compute; reflexivity. Qed.

(** The relation and the function agree. *)
Lemma loop_run_for_loop segments : forall clips out,
  loop_run segments clips out <-> for_loop segments clips = out.
Proof.
  induction segments as [|seg rest IH]; intros clips out; simpl.
  - split; [by inversion 1 | intros <-; constructor].
  - split.
    + inversion 1 as [|? ? ? clips' ? Hbody Hrest|? ? ? e Hbody]; subst;
        rewrite Hbody; simpl; [by apply IH | done].
    + intros <-. destruct (loop_body clips seg) as [clips'|e] eqn:Hbody; simpl.
      * eapply run_iterate; [done | by apply IH].
      * by apply run_raise.
Qed.

(** C5: converting the same segment list twice yields identical output: two
    calls on the same segments end in the same outcome (the same clips, or
    the same exception). *)
Theorem C5_same_input_same_output (segments : list Segment)
    (out1 out2 : result (list TimelineClip)) :
  converts segments out1 -> converts segments out2 -> out1 = out2.
Proof.
  unfold converts. intros H1 H2.
  apply loop_run_for_loop in H1, H2. congruence.
Qed.

Lemma C5_witness :
  converts [hello_segment] (Ok [hello_clip])
  /\ segments_to_timeline_clips [hello_segment] = Ok [hello_clip].
Proof.
  assert (H : converts [hello_segment] (segments_to_timeline_clips [hello_segment])).
  { by apply loop_run_for_loop. }
  assert (H' : converts [hello_segment] (Ok [hello_clip])).
  { apply loop_run_for_loop. vm_compute; reflexivity. }
  split; [exact H'|].
  exact (C5_same_input_same_output [hello_segment] _ _ H H').
Defined.

Lemma round_three_decimals x : three_decimals (round x 3).
Proof.
  destruct x as [z|f]; simpl; [done|].
  unfold float_round. simpl.
  destruct (Prim2SF f) as [s|s| |s m e] eqn:Hf.
  - right. exists s, 0%Z. unfold decimal_to_float.
    rewrite <- Hf. symmetry. apply SF2Prim_Prim2SF.
  - left. by rewrite Hf.
  - left. by rewrite Hf.
  - right. by eexists _, _.
Qed.

(** C6: in every emitted clip the start is [round(start, 3)] and the
    duration is [round(end - start, 3)] of the segment it comes from, and
    both are numbers of at most three decimals (a float being the double
    nearest to some n/1000, unless it is an infinity or NaN, which [round]
    leaves as they are). *)
Theorem C6_three_decimal_rounding (segments : list Segment)
    (clips : list TimelineClip) :
  segments_to_timeline_clips segments = Ok clips ->
  Forall (fun c =>
    (exists seg d, seg ∈ segments
       /\ py_sub (end_of seg) (start_of seg) = Ok d
       /\ start c = round (start_of seg) 3
       /\ duration c = round d 3)
    /\ three_decimals (start c) /\ three_decimals (duration c)) clips.
Proof.
  intros H. eapply Forall_impl; [by apply emitted_clips_origin|].
  intros c (seg & Hin & Hc). simpl in Hc.
  destruct (spec_clip_Some _ _ Hc) as (d & Hd & _ & _ & ->); simpl.
  split; [by exists seg, d|].
  split; apply round_three_decimals.
Qed.

Lemma C6_witness :
  Forall (fun c =>
    (exists seg d, seg ∈ [hello_segment]
       /\ py_sub (end_of seg) (start_of seg) = Ok d
       /\ start c = round (start_of seg) 3
       /\ duration c = round d 3)
    /\ three_decimals (start c) /\ three_decimals (duration c)) [hello_clip].
Proof.
  apply (C6_three_decimal_rounding [hello_segment] [hello_clip]).
  vm_compute; reflexivity.
Defined.

(** C7: on [[{start: 1.2, end: 3.7, text: " Hello world "}]] the converter
    returns exactly [[{start: 1.2, duration: 2.5, subtitleText: "Hello world"}]]. *)
Theorem C7_hello_world_scenario :
  segments_to_timeline_clips
    [mkSegment (Some (PyFloat 1.2)) (Some (PyFloat 3.7)) (Some (str " Hello world "))]
  = Ok [mkClip (PyFloat 1.2) (PyFloat 2.5) (str "Hello world")].
Proof. vm_compute. reflexivity. Qed.

(** A finite float minus itself is [+0.0]. *)
Lemma float_sub_diag f :
  num_is_finite (PyFloat f) = true -> Prim2SF (f - f) = S754_zero false.
Proof.
  simpl. rewrite sub_spec. unfold SF64sub, SFsub.
  destruct (Prim2SF f) as [s|s| |s m e]; try discriminate; intros _.
  - by destruct s.
  - rewrite Z.min_id. unfold shl_align.
    replace (IntDef.Z.sub e e) with 0%Z by (symmetry; apply Z.sub_diag).
    simpl fst.
    replace (IntDef.Z.sub (cond_Zopp s (Z.pos m)) (cond_Zopp s (Z.pos m)))
      with 0%Z by (symmetry; apply Z.sub_diag).
    reflexivity.
Qed.

Lemma sub_diag_dropped x :
  num_is_finite x = true ->
  exists d, py_sub x x = Ok d /\ py_le_zero (round d 3) = true.
Proof.
  destruct x as [z|f]; intros Hfin.
  - exists (PyInt 0). simpl. by rewrite Z.sub_diag.
  - exists (PyFloat (f - f)). split; [done|].
    pose proof (float_sub_diag f Hfin) as Hz.
    simpl. unfold float_round. simpl. rewrite Hz.
    by rewrite leb_spec, Hz.
Qed.

(** A record without start or without end never fails in the subtraction. *)
Lemma missing_bound_subtracts seg :
  seg_start seg = None \/ seg_end seg = None ->
  exists d, py_sub (end_of seg) (start_of seg) = Ok d.
Proof.
  unfold end_of, start_of. destruct seg as [[st|] [en|] tx]; simpl.
  - intros [|]; discriminate.
  - intros _. destruct st; simpl; eauto.
  - intros _. destruct en; simpl; eauto.
  - eauto.
Qed.

Lemma loop_body_total clips seg :
  (exists d, py_sub (end_of seg) (start_of seg) = Ok d) ->
  exists clips', loop_body clips seg = Ok clips'.
Proof.
  intros [d Hd]. unfold loop_body. unfold end_of, start_of in Hd.
  rewrite Hd. simpl.
  destruct (py_le_zero _); [eauto|]. destruct (negb _); eauto.
Qed.

Lemma for_loop_total segments : forall clips,
  Forall (fun seg => exists d, py_sub (end_of seg) (start_of seg) = Ok d) segments ->
  exists clips', for_loop segments clips = Ok clips'.
Proof.
  induction segments as [|seg rest IH]; intros clips Hall; simpl; [eauto|].
  inversion Hall as [|? ? Hseg Hrest]; subst.
  destruct (loop_body_total clips seg Hseg) as [clips' ->]. simpl. by apply IH.
Qed.

(** C10, as the code has it: an absent key raises nothing by itself.  A missing
    ['start'] stands for the int 0, a missing ['end'] for the segment's start
    and a missing ['text'] for the empty string; a record without start or
    without end raises no exception, and neither does a list of such
    records; a record without end is dropped for its non-positive duration
    when its start is finite, and a record without text is dropped whenever
    its duration is computed. *)
Theorem C10_missing_keys (seg : Segment) (clips : list TimelineClip) :
  (seg_start seg = None ->
     loop_body clips seg
     = loop_body clips (mkSegment (Some (PyInt 0)) (seg_end seg) (seg_text seg)))
  /\ (seg_end seg = None ->
        loop_body clips seg
        = loop_body clips (mkSegment (seg_start seg) (Some (start_of seg)) (seg_text seg)))
  /\ (seg_text seg = None ->
        loop_body clips seg
        = loop_body clips (mkSegment (seg_start seg) (seg_end seg) (Some [])))
  /\ (seg_start seg = None \/ seg_end seg = None ->
        exists clips', loop_body clips seg = Ok clips')
  /\ (forall segments,
        Forall (fun s => seg_start s = None \/ seg_end s = None) segments ->
        exists out, segments_to_timeline_clips segments = Ok out)
  /\ (seg_end seg = None -> num_is_finite (start_of seg) = true ->
        loop_body clips seg = Ok clips)
  /\ (seg_text seg = None ->
        forall d, py_sub (end_of seg) (start_of seg) = Ok d ->
        loop_body clips seg = Ok clips).
Proof.
  repeat split.
  - destruct seg as [st en tx]; simpl. by intros ->.
  - destruct seg as [st en tx]; simpl. intros ->.
    unfold loop_body, start_of. simpl. by destruct st.
  - destruct seg as [st en tx]; simpl. by intros ->.
  - intros H. by apply loop_body_total, missing_bound_subtracts.
  - intros segments Hall. apply for_loop_total.
    eapply Forall_impl; [exact Hall|]. apply missing_bound_subtracts.
  - intros Hend Hfin. unfold loop_body. rewrite Hend. simpl.
    destruct (sub_diag_dropped _ Hfin) as (d & Hd & Hle).
    unfold start_of in Hd. rewrite Hd. simpl. by rewrite Hle.
  - intros Htext d Hd. unfold loop_body. unfold end_of, start_of in Hd.
    rewrite Hd, Htext. simpl. by destruct (py_le_zero _).
Qed.

Lemma C10_witness :
  loop_body [hello_clip] (mkSegment (Some (PyFloat 4.25)) None None) = Ok [hello_clip]
  /\ (exists out,
        segments_to_timeline_clips
          [startless_segment; mkSegment (Some (PyFloat 4.25)) None None] = Ok out).
Proof.
  pose proof (C10_missing_keys (mkSegment (Some (PyFloat 4.25)) None None) [hello_clip])
    as (_ & _ & _ & _ & Htotal & Hdrop & _).
  split.
  - apply Hdrop; reflexivity.
  - apply Htotal.
    constructor; [by left|]. constructor; [by right | constructor].
Defined.

(** C10 as worded does not hold: a record without end whose start is infinite has
    the duration [inf - inf], which is NaN and not [<= 0], so it is emitted
    rather than dropped; and a record without text on which the subtraction
    overflows raises. *)
Lemma C10_counterexample :
  seg_end endless_segment = None
  /\ segments_to_timeline_clips [endless_segment]
     = Ok [mkClip (PyFloat infinity) (PyFloat nan) (str "x")]
  /\ exists e,
       segments_to_timeline_clips
         [mkSegment (Some (PyInt (10 ^ 400))) (Some (PyFloat 1.5)) None] = Raise e
       /\ exc_class e = OverflowError.
Proof.
  split; [reflexivity|]. split; [vm_compute; reflexivity|].
  eexists. split; [vm_compute; reflexivity | reflexivity].
Qed.

(** ** The handlers *)

Section Handler.
Context (env : Env).

(** The [finally] clause never raises, touches nothing but the temporary
    file, and leaves no file of that name when [os.unlink] does not fail. *)
Lemma cleanup_spec tmp_name w :
  exists w', cleanup env tmp_name w = (Ok tt, w')
    /\ (unlink_error env = None -> fs w' !! tmp_name = None)
    /\ (fs w' = fs w \/ fs w' = delete tmp_name (fs w))
    /\ _model w' = _model w /\ stdout w' = stdout w /\ stderr w' = stderr w.
Proof.
  unfold cleanup, try_except_OSError, unlink.
  destruct (fs w !! tmp_name) as [bytes|] eqn:Hfile; simpl.
  - destruct (unlink_error env) as [msg|]; simpl.
    + eexists. split; [reflexivity|]. simpl.
      repeat split; [discriminate | by left].
    + eexists. split; [reflexivity|]. simpl.
      repeat split; [intros _; apply lookup_delete_eq | by right].
  - eexists. split; [reflexivity|]. simpl. repeat split; [done | by left].
Qed.

Lemma jsonify_Ok body body' : jsonify body = Ok body' -> body' = body.
Proof.
  destruct body as [error|status|clips n]; simpl; try by intros [= <-].
  destruct (_ || _); [discriminate | by intros [= <-]].
Qed.

(** A returning [try] clause returns status 200 with the clips of the
    converter and their number. *)
Lemma process_Ok request uploaded suffix tmp_name w1 response w2 :
  process env request uploaded suffix tmp_name w1 = (Ok response, w2) ->
  exists segments clips,
    segments_to_timeline_clips segments = Ok clips
    /\ response = mkResponse 200 (ClipsBody clips (Z.of_nat (length clips))).
Proof.
  unfold process, bind.
  destruct (save env uploaded tmp_name w1) as [[[]|e] wa]; [|discriminate].
  destruct (print _ wa) as [[[]|e] wb]; [|discriminate].
  destruct (transcribe env tmp_name _ wb) as [[segments|e] wc]; [|discriminate].
  unfold lift.
  destruct (segments_to_timeline_clips segments) as [clips|e] eqn:Hclips;
    [|discriminate].
  destruct (print _ wc) as [[[]|e] wd]; [|discriminate].
  destruct (jsonify _) as [body'|e] eqn:Hjson; [|discriminate].
  apply jsonify_Ok in Hjson as ->.
  unfold ret. intros [= <- <-]. by exists segments, clips.
Qed.

(** Two of the failures of the [try] clause: the upload cannot be saved,
    and the model, already loaded, fails on the file. *)
Lemma process_save_fails request uploaded suffix tmp_name w1 exc :
  save_raises env = Some exc ->
  process env request uploaded suffix tmp_name w1
  = (Raise exc, snd (log_op (SaveFailed tmp_name) w1)).
Proof. intros H. unfold process, bind, save. by rewrite H. Qed.

Lemma process_model_fails request uploaded suffix tmp_name w1 m exc :
  save_raises env = None ->
  _model w1 = Some m ->
  (forall path bytes language, model_transcribe env path bytes language = Raise exc) ->
  fst (process env request uploaded suffix tmp_name w1) = Raise exc.
Proof.
  intros Hsave Hmodel Hfail. unfold process, bind, save. rewrite Hsave. simpl.
  unfold transcribe, bind, get_model. simpl. by rewrite Hmodel, Hfail.
Qed.

End Handler.

(** Runs the [finally] clause in the goal, naming what is known of the
    world it leaves. *)
Ltac cleanup_runs H :=
  match goal with
  | |- context [cleanup ?env ?p ?w] =>
      destruct (cleanup_spec env p w) as (? & -> & H)
  end.

(** Once the temporary file exists, the handler returns what the [try]
    clause returned, or the 500 response of the [except] clause, and the
    [finally] clause has run on the world either left. *)
Lemma handle_transcribe_after_tmp env request uploaded w tmp_name w1 :
  validated request uploaded ->
  NamedTemporaryFile env (upload_suffix uploaded) w = (Ok tmp_name, w1) ->
  handle_transcribe env request w =
    match process env request uploaded (upload_suffix uploaded) tmp_name w1 with
    | (Ok response, w2) => (Ok response, snd (cleanup env tmp_name w2))
    | (Raise exc, w2) =>
        (Ok (mkResponse 500 (ErrorBody (str "Transcription failed: " ++ exc_str exc))),
         snd (cleanup env tmp_name (snd (print_exc exc w2))))
    end.
Proof.
  intros [Hfile Hname] Htmp. unfold handle_transcribe.
  rewrite Hfile, Hname. change (negb true) with false. cbv beta iota zeta.
  unfold bind at 1. rewrite Htmp.
  unfold try_finally, try_except.
  destruct (process _ _ _ _ _ w1) as [[response|exc] w2].
  - by cleanup_runs Hclean.
  - unfold on_exception, bind, ret. simpl. by cleanup_runs Hclean.
Qed.

Lemma handle_transcribe_tmp_fails env request uploaded w exc w1 :
  validated request uploaded ->
  NamedTemporaryFile env (upload_suffix uploaded) w = (Raise exc, w1) ->
  handle_transcribe env request w = (Raise exc, w1).
Proof.
  intros [Hfile Hname] Htmp. unfold handle_transcribe.
  rewrite Hfile, Hname. change (negb true) with false. cbv beta iota zeta.
  unfold bind at 1. by rewrite Htmp.
Qed.


Lemma _mkstemp_inner_Some dir pre suf names files file :
  _mkstemp_inner dir pre suf names files = Some file ->
  files !! file = None
  /\ exists name, name ∈ names /\ file = path_join dir (pre ++ name ++ suf).
Proof.
  induction names as [|name rest IH]; simpl; [discriminate|].
  destruct (files !! path_join dir (pre ++ name ++ suf)) as [bytes|] eqn:Hfile.
  - intros H. destruct (IH H) as (Hfree & name' & Hin & ->).
    split; [done|]. exists name'. split; [by right | done].
  - intros [= <-]. split; [done|]. exists name. split; [by left | done].
Qed.

(** [NamedTemporaryFile] returns a name no file had, ending in the suffix,
    and the only change is the new empty file. *)
Lemma NamedTemporaryFile_Ok env suffix w tmp_name w1 :
  NamedTemporaryFile env suffix w = (Ok tmp_name, w1) ->
  fs w !! tmp_name = None
  /\ w1 = mkWorld (<[tmp_name := []]> (fs w)) (_model w) (stdout w) (stderr w)
            (whisper_cache w) (file_ops w ++ [Created tmp_name])
  /\ exists name, name ∈ tmp_names env
       /\ tmp_name = path_join (tempdir env) (str "tmp" ++ name ++ suffix).
Proof.
  unfold NamedTemporaryFile.
  destruct (has_NUL _); [discriminate|].
  destruct (open_error env) as [msg|]; [discriminate|].
  destruct (_mkstemp_inner _ _ _ _ _) as [file|] eqn:Hfile; [|discriminate].
  apply _mkstemp_inner_Some in Hfile as (Hfree & name & Hin & Hname).
  unfold bind, set_fs, ret. intros [= <- <-].
  split; [done|]. split; [done|].
  exists name. split; [by eapply subseteq_take | done].
Qed.

(** The two client errors, on a world nothing has touched. *)
Example no_file_is_400 :
  handle_transcribe good_env no_file_request fresh_world
  = (Ok (mkResponse 400
           (ErrorBody (str "No file provided. Send a file with key 'file'."))),
     fresh_world).
Proof. reflexivity. Qed.

Example empty_filename_is_400 :
  handle_transcribe good_env unnamed_request fresh_world
  = (Ok (mkResponse 400 (ErrorBody (str "Empty filename."))), fresh_world).
Proof. reflexivity. Qed.

(** C3, as the code has it: a request without a ['file'] part gets 400 and
    ["No file provided. Send a file with key 'file'."]; one with an empty
    file name gets 400 and ["Empty filename."]; once the temporary file is
    created, every exception raised in the [try] clause -- by saving the
    upload, by the model or by the conversion -- is answered with 500 and the
    body [{error: "Transcription failed: " + str(exc)}], the exception with
    its traceback going to stderr and not into the response; an exception of
    the creation of the temporary file itself, which precedes the [try], is
    not caught and leaves the handler. *)
Theorem C3_error_responses (env : Env) (request : Request) (w : World) :
  (files_file request = None ->
     handle_transcribe env request w
     = (Ok (mkResponse 400
              (ErrorBody (str "No file provided. Send a file with key 'file'."))), w))
  /\ (forall uploaded,
        files_file request = Some uploaded ->
        str_truthy (dict_get (filename uploaded) []) = false ->
        handle_transcribe env request w
        = (Ok (mkResponse 400 (ErrorBody (str "Empty filename."))), w))
  /\ (forall uploaded tmp_name w1 exc w2,
        validated request uploaded ->
        NamedTemporaryFile env (upload_suffix uploaded) w = (Ok tmp_name, w1) ->
        process env request uploaded (upload_suffix uploaded) tmp_name w1
          = (Raise exc, w2) ->
        exists w',
          handle_transcribe env request w
          = (Ok (mkResponse 500
                   (ErrorBody (str "Transcription failed: " ++ exc_str exc))), w')
          /\ stderr w' = stderr w2 ++ [exc])
  /\ (forall uploaded exc w1,
        validated request uploaded ->
        NamedTemporaryFile env (upload_suffix uploaded) w = (Raise exc, w1) ->
        handle_transcribe env request w = (Raise exc, w1)).
Proof.
  repeat split.
  - intros Hfile. unfold handle_transcribe. by rewrite Hfile.
  - intros uploaded Hfile Hname. unfold handle_transcribe. by rewrite Hfile, Hname.
  - intros uploaded tmp_name w1 exc w2 Hvalid Htmp Hraise.
    rewrite (handle_transcribe_after_tmp _ _ _ _ _ _ Hvalid Htmp), Hraise.
    eexists. split; [reflexivity|].
    cleanup_runs Hclean. destruct Hclean as (_ & _ & _ & _ & Herr).
    simpl. by rewrite Herr.
  - intros uploaded exc w1 Hvalid Htmp.
    by apply handle_transcribe_tmp_fails with uploaded.
Qed.

Lemma C3_witness :
  exists w',
    handle_transcribe failing_model_env upload_request busy_world
    = (Ok (mkResponse 500
             (ErrorBody (str "Transcription failed: CUDA out of memory"))), w')
    /\ stderr w' = [out_of_memory].
Proof.
  pose proof (C3_error_responses failing_model_env upload_request busy_world)
    as (_ & _ & Hcaught & _).
  destruct (Hcaught clip_upload (str "/tmp/tmpq7ab.mov")
              (snd (NamedTemporaryFile failing_model_env (upload_suffix clip_upload)
                      busy_world))
              out_of_memory
              (snd (process failing_model_env upload_request clip_upload
                      (upload_suffix clip_upload) (str "/tmp/tmpq7ab.mov")
                      (snd (NamedTemporaryFile failing_model_env
                              (upload_suffix clip_upload) busy_world)))))
    as (w' & Hresponse & Hstderr).
  - split; reflexivity.
  - vm_compute; reflexivity.
  - vm_compute; reflexivity.
  - exists w'. split; [exact Hresponse|]. rewrite Hstderr. vm_compute; reflexivity.
Defined.

(** C3 as worded does not hold: when the temporary file cannot be created the
    exception is not caught, and the handler returns no response at all. *)
Lemma C3_counterexample :
  fst (handle_transcribe disk_full_env upload_request busy_world)
  = Raise (mkExc OSError (str "[Errno 28] No space left on device") []).
Proof. vm_compute. reflexivity. Qed.

(** *** The world through a request *)

(** What [get_model] leaves of the world: no file outside Whisper's cache
    and no file operation; a cached model makes it change nothing, an empty
    cache makes it download. *)
Lemma get_model_world env w r w1 :
  get_model env w = (r, w1) ->
  fs w1 = fs w /\ stderr w1 = stderr w /\ file_ops w1 = file_ops w
  /\ (forall m, _model w = Some m -> w1 = w /\ r = Ok m)
  /\ (_model w = None ->
        whisper_cache w1 = load_model_downloads env ∪ whisper_cache w)
  /\ (forall m, r = Ok m -> _model w1 = Some m).
Proof.
  unfold get_model.
  destruct (_model w) as [m|] eqn:Hm.
  - intros [= <- <-]. split_conj; try done.
    + by intros m' [= <-].
    + by intros m' [= <-].
  - unfold bind, print, load_model, set_model, ret. simpl.
    destruct (load_model_raises env) as [exc|]; simpl;
      intros [= <- <-]; split_conj; try done.
    by intros m' [= <-].
Qed.

Lemma transcribe_effects env audio_path language w r w' :
  transcribe env audio_path language w = (r, w') ->
  fs w' = fs w /\ stderr w' = stderr w /\ file_ops w' = file_ops w
  /\ (forall m, _model w = Some m ->
        _model w' = Some m /\ whisper_cache w' = whisper_cache w
        /\ stdout w' = stdout w
                       ++ model_prints env audio_path (fs w !! audio_path)
                            (or_None language))
  /\ (_model w = None ->
        whisper_cache w' = load_model_downloads env ∪ whisper_cache w)
  /\ (forall segments, r = Ok segments -> is_Some (_model w')).
Proof.
  unfold transcribe, bind.
  destruct (get_model env w) as [[m|exc] w1] eqn:Hget;
    destruct (get_model_world _ _ _ _ Hget)
      as (Hfs & Herr & Hops & Hcached & Hload & Hok).
  - specialize (Hok m eq_refl).
    destruct (model_transcribe env audio_path _ _) as [result|exc]; unfold lift;
      intros [= <- <-]; simpl; split_conj; try done; try by eauto.
    + intros m' Hm'. by destruct (Hcached m' Hm') as [-> [= <-]].
    + intros m' Hm'. by destruct (Hcached m' Hm') as [-> [= <-]].
  - intros [= <- <-]. split_conj; try done.
    intros m' Hm'. by destruct (Hcached m' Hm') as [_ [=]].
Qed.

Lemma NamedTemporaryFile_Raise env suffix w exc w1 :
  NamedTemporaryFile env suffix w = (Raise exc, w1) ->
  w1 = w /\ (exc_class exc = OSError \/ exc_class exc = ValueError).
Proof.
  unfold NamedTemporaryFile.
  destruct (has_NUL _); [intros [= <- <-]; by eauto|].
  destruct (open_error env) as [msg|]; [intros [= <- <-]; by eauto|].
  destruct (_mkstemp_inner _ _ _ _ _) as [file|]; [discriminate|].
  intros [= <- <-]; by eauto.
Qed.

(** The [finally] clause, field by field: it never raises, and its one file
    operation is the unlink of the temporary file, which removes the file
    when the file is there and [os.unlink] does not fail. *)
Lemma cleanup_world env tmp_name w :
  exists w', cleanup env tmp_name w = (Ok tt, w')
    /\ _model w' = _model w /\ stdout w' = stdout w /\ stderr w' = stderr w
    /\ whisper_cache w' = whisper_cache w
    /\ (unlink_error env = None -> fs w' = delete tmp_name (fs w))
    /\ (is_Some (unlink_error env) -> fs w' = fs w)
    /\ (is_Some (fs w !! tmp_name) ->
          file_ops w' = file_ops w
                        ++ [match unlink_error env with
                            | Some _ => UnlinkFailed tmp_name
                            | None => Unlinked tmp_name
                            end]).
Proof.
  unfold cleanup, try_except_OSError, unlink.
  destruct (fs w !! tmp_name) as [bytes|] eqn:Hfile; simpl.
  - destruct (unlink_error env) as [msg|]; simpl;
      (eexists; split; [reflexivity|]); simpl;
      split_conj; try done; by intros [? [=]].
  - eexists. split; [reflexivity|]. simpl.
    split_conj; try done;
      first [ intros _; by rewrite delete_id | by intros [? [=]] ].
Qed.

(** The [try] clause: its one file operation is the save of the upload; it
    changes no file but the temporary one, prints no traceback and keeps a
    cached model, and it returns only with a model cached. *)
Lemma process_world env request uploaded suffix tmp_name w1 r w2 :
  process env request uploaded suffix tmp_name w1 = (r, w2) ->
  stderr w2 = stderr w1
  /\ fs w2 = match save_raises env with
             | Some _ => fs w1
             | None => <[tmp_name := stream uploaded]> (fs w1)
             end
  /\ file_ops w2 = file_ops w1
                   ++ [match save_raises env with
                       | Some _ => SaveFailed tmp_name
                       | None => Saved tmp_name (stream uploaded)
                       end]
  /\ (forall m, _model w1 = Some m ->
        _model w2 = Some m /\ whisper_cache w2 = whisper_cache w1)
  /\ (whisper_cache w2 = whisper_cache w1
      \/ whisper_cache w2 = load_model_downloads env ∪ whisper_cache w1)
  /\ (forall response, r = Ok response -> is_Some (_model w2))
  /\ (is_Some (save_raises env) -> _model w2 = _model w1 /\ stdout w2 = stdout w1).
Proof.
  unfold process, bind, save.
  destruct (save_raises env) as [exc|] eqn:Hsave.
  { unfold log_op, raise. intros [= <- <-]. simpl. split_conj; try done. by left. }
  unfold set_fs, log_op, print, bind. cbv beta iota.
  match goal with |- context [transcribe env tmp_name ?l ?w] =>
    destruct (transcribe env tmp_name l w) as [[segments|exc] wc] eqn:Ht;
    destruct (transcribe_effects _ _ _ _ _ _ Ht)
      as (Hfs & Herr & Hops & Hcached & Hload & Hloaded)
  end; simpl in Hfs, Herr, Hops, Hcached, Hload.
  all: assert (Hcache : whisper_cache wc = whisper_cache w1
                \/ whisper_cache wc = load_model_downloads env ∪ whisper_cache w1)
         by (destruct (_model w1) as [m|] eqn:Hm;
             [left; by destruct (Hcached m eq_refl) as (_ & ? & _) | right; by apply Hload]).
  all: unfold lift, ret;
    try destruct (segments_to_timeline_clips segments) as [clips|exc'];
    try destruct (jsonify _) as [body'|exc''];
    intros [= <- <-]; simpl; rewrite ?Hfs, ?Herr, ?Hops;
    split_conj; try done;
    first [ by eauto
          | by intros [? [=]]
          | intros m Hm; by destruct (Hcached m Hm) as (? & ? & _) ].
Qed.




(** C8: [GET /health] returns status 200 with the body [{"status": "ok"}]
    after any sequence of earlier requests, and changes nothing. *)
Theorem C8_health_always_ok (history : list Route) (w : World) :
  serve GET_health (serve_all history w)
  = (Ok (mkResponse 200 (StatusBody (str "ok"))), serve_all history w).
Proof. reflexivity. Qed.

(** C9: in every 200 response of [POST /transcribe] the body holds the
    clips the converter returned and [segmentCount] is their number; that
    number can differ from the number of segments the transcription returned
    (here two segments, of which one has no duration and is left out). *)
Theorem C9_segmentCount_counts_clips :
  (forall env request w response w',
     handle_transcribe env request w = (Ok response, w') ->
     status_code response = 200%Z ->
     exists segments clips,
       segments_to_timeline_clips segments = Ok clips
       /\ body response = ClipsBody clips (Z.of_nat (length clips)))
  /\ exists env request w raw segments clips w',
       model_transcribe env (str "/tmp/tmpq7ab.mov") (Some [82%N; 73%N; 70%N; 70%N])
         (Some (str "en")) = Ok (mkWhisperResult (Some raw))
       /\ transcribe_loop raw [] = Ok segments
       /\ length segments = 2
       /\ handle_transcribe env request w
          = (Ok (mkResponse 200 (ClipsBody clips 1)), w')
       /\ length clips = 1.
Proof.
  split.
  - intros env request w response w' Hrun Hstatus.
    unfold handle_transcribe in Hrun.
    destruct (files_file request) as [uploaded|] eqn:Hfile;
      [|injection Hrun as <- _; discriminate].
    destruct (str_truthy (dict_get (filename uploaded) [])) eqn:Hname;
      [|injection Hrun as <- _; discriminate].
    assert (Hvalid : validated request uploaded) by done.
    change (negb true) with false in Hrun. cbv beta iota zeta in Hrun.
    destruct (NamedTemporaryFile env (upload_suffix uploaded) w)
      as [[tmp_name|exc] w1] eqn:Htmp.
    + pose proof (handle_transcribe_after_tmp env request uploaded w tmp_name w1
                    Hvalid Htmp) as Hafter.
      unfold handle_transcribe in Hafter. rewrite Hfile, Hname in Hafter.
      change (negb true) with false in Hafter. cbv beta iota zeta in Hafter.
      rewrite Hafter in Hrun. clear Hafter.
      destruct (process env request uploaded (upload_suffix uploaded) tmp_name w1)
        as [[response0|exc] w2] eqn:Hprocess.
      * injection Hrun as <- _.
        destruct (process_Ok _ _ _ _ _ _ _ _ Hprocess) as (segments & clips & Hc & ->).
        by exists segments, clips.
      * injection Hrun as <- _. discriminate.
    + unfold bind in Hrun. rewrite Htmp in Hrun. discriminate.
  - exists good_env, upload_request, busy_world, [hello_segment; still_segment],
      [mkSegment (Some (PyFloat 1.2)) (Some (PyFloat 3.7)) (Some (str "Hello world"));
       still_segment],
      [hello_clip], (snd (handle_transcribe good_env upload_request busy_world)).
    split_conj; vm_compute; reflexivity.
Qed.

Lemma C9_witness :
  exists segments clips,
    segments_to_timeline_clips segments = Ok clips
    /\ body (mkResponse 200 (ClipsBody [hello_clip] 1))
       = ClipsBody clips (Z.of_nat (length clips)).
Proof.
  apply (proj1 C9_segmentCount_counts_clips good_env upload_request busy_world
           (mkResponse 200 (ClipsBody [hello_clip] 1))
           (snd (handle_transcribe good_env upload_request busy_world))).
  - vm_compute; reflexivity.
  - reflexivity.
Defined.

(** ** Further properties of the converter *)

Lemma for_loop_app a : forall b clips,
  for_loop (a ++ b) clips = rbind (for_loop a clips) (for_loop b).
Proof.
  induction a as [|seg a IH]; intros b clips; simpl; [done|].
  destruct (loop_body clips seg) as [clips'|e]; simpl; [apply IH | done].
Qed.

(** X1: converting a concatenation is converting the parts, first to last:
    the clips of the first part followed by those of the second, or the first
    exception met. *)
Theorem converter_app (a b : list Segment) :
  segments_to_timeline_clips (a ++ b)
  = rbind (segments_to_timeline_clips a) (fun clips_a =>
    rbind (segments_to_timeline_clips b) (fun clips_b => Ok (clips_a ++ clips_b))).
Proof.
  unfold segments_to_timeline_clips at 1 2. rewrite for_loop_app.
  destruct (for_loop a []) as [clips_a|e]; simpl; [|done].
  rewrite for_loop_spec, converter_refines_spec.
  by destruct (spec_convert b).
Qed.

Lemma clips_no_more_than_segments segments clips :
  segments_to_timeline_clips segments = Ok clips -> length clips <= length segments.
Proof.
  intros H. rewrite converter_refines_spec in H.
  destruct (spec_convert_sublist _ _ H) as (kept & Hsub & Hall).
  apply Forall2_length in Hall. apply sublist_length in Hsub. lia.
Qed.

(** X2: the converter returns at most as many clips as it was given
    segments, and none for the empty list. *)
Theorem converter_length (segments : list Segment) (clips : list TimelineClip) :
  segments_to_timeline_clips segments = Ok clips ->
  length clips <= length segments
  /\ (segments = [] -> clips = []).
Proof.
  intros H. split; [by apply clips_no_more_than_segments|].
  intros ->. by injection H as <-.
Qed.

Lemma converter_length_witness :
  length [hello_clip] <= length [still_segment; hello_segment]
  /\ ([still_segment; hello_segment] = [] -> [hello_clip] = []).
Proof.
  apply (converter_length [still_segment; hello_segment] [hello_clip]).
  vm_compute; reflexivity.
Defined.

Lemma PyLong_AsDouble_Raise z e : PyLong_AsDouble z = Raise e -> e = int_too_large.
Proof.
  unfold PyLong_AsDouble.
  destruct (binary_normalize prec emax z 0 false); try discriminate.
  by intros [= <-].
Qed.

Lemma py_sub_Raise a b e :
  py_sub a b = Raise e -> e = int_too_large /\ same_kind a b = false.
Proof.
  destruct a as [x|x], b as [y|y]; simpl; try discriminate.
  - destruct (PyLong_AsDouble x) as [x'|e'] eqn:Hx; simpl; [discriminate|].
    intros [= <-]. split; [by eapply PyLong_AsDouble_Raise | done].
  - destruct (PyLong_AsDouble y) as [y'|e'] eqn:Hy; simpl; [discriminate|].
    intros [= <-]. split; [by eapply PyLong_AsDouble_Raise | done].
Qed.

Lemma loop_body_Raise clips seg e :
  loop_body clips seg = Raise e ->
  e = int_too_large /\ same_kind (end_of seg) (start_of seg) = false.
Proof.
  unfold loop_body, end_of, start_of.
  destruct (py_sub _ _) as [d|e'] eqn:Hsub; simpl.
  - destruct (py_le_zero _); [discriminate|]. by destruct (negb _).
  - intros [= <-]. by apply py_sub_Raise.
Qed.

(** X3: the only exception the converter raises is the [OverflowError]
    "int too large to convert to float", and only for a list holding a
    segment whose start and end are an int and a float. *)
Theorem converter_raises_only_overflow (segments : list Segment) (e : PyExc) :
  segments_to_timeline_clips segments = Raise e ->
  e = int_too_large
  /\ exists seg, seg ∈ segments /\ same_kind (end_of seg) (start_of seg) = false.
Proof.
  unfold segments_to_timeline_clips. generalize (@nil TimelineClip).
  induction segments as [|seg rest IH]; intros clips; simpl; [discriminate|].
  destruct (loop_body clips seg) as [clips'|e'] eqn:Hbody; simpl.
  - intros H. destruct (IH _ H) as (-> & seg' & Hin & Hkind).
    split; [done|]. exists seg'. split; [by right | done].
  - intros [= <-]. destruct (loop_body_Raise _ _ _ Hbody) as [-> Hkind].
    split; [done|]. exists seg. split; [by left | done].
Qed.

Lemma converter_raises_only_overflow_witness :
  int_too_large = int_too_large
  /\ exists seg,
       seg ∈ [hello_segment; mkSegment (Some (PyInt (10 ^ 400))) (Some (PyFloat 1.5)) None]
       /\ same_kind (end_of seg) (start_of seg) = false.
Proof.
  apply (converter_raises_only_overflow
           [hello_segment; mkSegment (Some (PyInt (10 ^ 400))) (Some (PyFloat 1.5)) None]).
  vm_compute; reflexivity.
Defined.

Lemma same_kind_subtracts a b : same_kind a b = true -> exists d, py_sub a b = Ok d.
Proof. destruct a, b; simpl; try discriminate; eauto. Qed.

(** X4: on a list in which the start and the end of every segment are of one
    kind -- both floats or both ints, absent ones taking their defaults --
    the converter returns. *)
Theorem converter_total_same_kind (segments : list Segment) :
  Forall (fun seg => same_kind (end_of seg) (start_of seg) = true) segments ->
  exists clips, segments_to_timeline_clips segments = Ok clips.
Proof.
  intros Hall. apply for_loop_total.
  eapply Forall_impl; [exact Hall|]. intros seg. apply same_kind_subtracts.
Qed.

Lemma converter_total_same_kind_witness :
  exists clips,
    segments_to_timeline_clips [hello_segment; padded_segment; nan_segment] = Ok clips.
Proof.
  apply (converter_total_same_kind [hello_segment; padded_segment; nan_segment]).
  repeat constructor.
Defined.

(** *** Trimming *)

Lemma lstrip_head s c t : lstrip s = c :: t -> Py_UNICODE_ISSPACE c = false.
Proof.
  induction s as [|x s IH]; simpl; [discriminate|].
  destruct (Py_UNICODE_ISSPACE x) eqn:Hx; [done|]. by intros [= <- _].
Qed.

(** [lstrip] removes a prefix. *)
Lemma lstrip_suffix s : exists pre, s = pre ++ lstrip s.
Proof.
  induction s as [|x s [pre IH]]; simpl; [by exists []|].
  destruct (Py_UNICODE_ISSPACE x); [|by exists []].
  exists (x :: pre). simpl. by rewrite <- IH.
Qed.

Lemma lstrip_fixed s :
  (forall c, head s = Some c -> Py_UNICODE_ISSPACE c = false) -> lstrip s = s.
Proof.
  destruct s as [|x s]; simpl; [done|]. intros H. by rewrite (H x eq_refl).
Qed.

Lemma head_rev_last {A} (l : list A) : head (rev l) = last l.
Proof.
  induction l as [|x l _] using rev_ind; [done|].
  by rewrite rev_app_distr, last_snoc.
Qed.

(** What [strip] returns begins and ends with a code point that is not
    white space. *)
Lemma strip_trimmed s : trimmed (strip s).
Proof.
  unfold strip, rstrip.
  destruct (lstrip_suffix (rev (lstrip s))) as [pre Hpre].
  destruct (lstrip (rev (lstrip s))) as [|c v] eqn:Hv; [by split|].
  split.
  - intros x Hx.
    assert (Hs : lstrip s = rev (c :: v) ++ rev pre).
    { rewrite <- rev_app_distr, <- Hpre. by rewrite rev_involutive. }
    destruct (rev (c :: v)) as [|y u] eqn:Hrev.
    { apply (f_equal (@length N)) in Hrev. rewrite length_rev in Hrev. done. }
    simpl in Hx. injection Hx as <-.
    by apply (lstrip_head s y (u ++ rev pre)).
  - intros x Hx. simpl in Hx. rewrite last_snoc in Hx. injection Hx as <-.
    by eapply lstrip_head.
Qed.

Lemma trimmed_strip s : trimmed s -> strip s = s.
Proof.
  intros [Hhead Hlast]. unfold strip, rstrip.
  rewrite (lstrip_fixed s Hhead).
  rewrite lstrip_fixed; [apply rev_involutive|].
  intros c Hc. apply Hlast. by rewrite <- head_rev_last.
Qed.

(** [strip] twice is [strip] once. *)
Lemma strip_idempotent s : strip (strip s) = strip s.
Proof. apply trimmed_strip, strip_trimmed. Qed.

(** X5: the subtitleText of every emitted clip is trimmed: it begins and
    ends with a code point that is not white space, and trimming it again
    changes nothing. *)
Theorem emitted_text_is_trimmed (segments : list Segment) (clips : list TimelineClip) :
  segments_to_timeline_clips segments = Ok clips ->
  Forall (fun c => trimmed (subtitleText c)
                   /\ strip (subtitleText c) = subtitleText c) clips.
Proof.
  intros H. eapply Forall_impl; [by apply emitted_clips_origin|].
  intros c (seg & _ & Hc). simpl in Hc.
  destruct (spec_clip_Some _ _ Hc) as (d & _ & _ & _ & ->); simpl.
  split; [apply strip_trimmed | apply strip_idempotent].
Qed.

Lemma emitted_text_is_trimmed_witness :
  Forall (fun c => trimmed (subtitleText c)
                   /\ strip (subtitleText c) = subtitleText c)
         [mkClip (PyInt 2) (PyInt 3) (str "tea time")].
Proof.
  apply (emitted_text_is_trimmed [padded_segment]).
  vm_compute; reflexivity.
Defined.

(** ** Further properties of whisper_service.py *)

Lemma transcribe_body_Ok segments seg out :
  transcribe_body segments seg = Ok out ->
  (strip (dict_get (seg_text seg) []) = [] /\ out = segments)
  \/ exists seg', rounded_from seg seg' /\ out = segments ++ [seg'].
Proof.
  unfold transcribe_body, rounded_from.
  destruct (strip (dict_get (seg_text seg) [])) as [|c text] eqn:Htext; simpl.
  - intros [= <-]. by left.
  - destruct (seg_start seg) as [s|]; simpl; [|discriminate].
    destruct (seg_end seg) as [e|]; simpl; [|discriminate].
    intros [= <-]. right. eexists. split; [|reflexivity].
    by exists s, e.
Qed.

Lemma transcribe_loop_Ok raw : forall acc out,
  transcribe_loop raw acc = Ok out ->
  exists kept new, out = acc ++ new /\ sublist kept raw
    /\ Forall2 rounded_from kept new.
Proof.
  induction raw as [|seg rest IH]; intros acc out; simpl.
  - intros [= <-]. exists [], []. by rewrite app_nil_r.
  - destruct (transcribe_body acc seg) as [acc'|e] eqn:Hbody; simpl; [|discriminate].
    intros H. destruct (IH _ _ H) as (kept & new & -> & Hsub & Hall).
    destruct (transcribe_body_Ok _ _ _ Hbody) as [[_ ->]|(seg' & Hseg & ->)].
    + exists kept, new. split; [done|]. split; [by apply sublist_cons | done].
    + exists (seg :: kept), (seg' :: new). rewrite <- app_assoc.
      split; [done|]. split; [by apply sublist_skip | by constructor].
Qed.

Lemma transcribe_loop_exact raw : forall acc out,
  transcribe_loop raw acc = Ok out ->
  exists new, out = acc ++ new
    /\ Forall2 rounded_from (List.filter non_blank raw) new.
Proof.
  induction raw as [|seg rest IH]; intros acc out; simpl.
  - intros [= <-]. exists []. by rewrite app_nil_r.
  - destruct (transcribe_body acc seg) as [acc'|e] eqn:Hbody; simpl; [|discriminate].
    intros H. destruct (IH _ _ H) as (new & -> & Hall).
    destruct (transcribe_body_Ok _ _ _ Hbody) as [[Hblank ->]|(seg' & Hseg & ->)].
    + exists new. split; [done|]. unfold non_blank at 1. by rewrite Hblank.
    + exists (seg' :: new). rewrite <- app_assoc. split; [done|].
      assert (Hkeep : non_blank seg = true).
      { destruct Hseg as (s & e & _ & _ & Htext & _). unfold non_blank.
        by apply str_truthy_nonempty. }
      rewrite Hkeep. by constructor.
Qed.

Lemma transcribe_loop_total raw : forall acc,
  Forall transcribable raw -> exists out, transcribe_loop raw acc = Ok out.
Proof.
  induction raw as [|seg rest IH]; intros acc Hall; simpl; [by eexists|].
  inversion Hall as [|? ? Hseg Hrest]; subst.
  assert (Hbody : exists acc', transcribe_body acc seg = Ok acc').
  { unfold transcribe_body.
    destruct Hseg as [->|[[s ->] [e ->]]]; simpl; [by eexists|].
    destruct (strip _); simpl; by eexists. }
  destruct Hbody as [acc' ->]. simpl. by apply IH.
Qed.

(** X6: what the loop of [transcribe] returns are exactly, in order and one
    for one, the raw segments whose trimmed text is not empty, each with its
    bounds rounded to three decimals and its text trimmed: no such segment
    is dropped and none is added; so every returned segment has all three
    keys and a trimmed, non-empty text.  And the loop does return when every
    raw segment has a blank text or both a start and an end. *)
Theorem transcribe_loop_output (raw : list Segment) :
  (forall segments, transcribe_loop raw [] = Ok segments ->
     Forall2 rounded_from (List.filter non_blank raw) segments
     /\ length segments = length (List.filter non_blank raw)
     /\ Forall (fun seg => exists s e text,
                  seg = mkSegment (Some s) (Some e) (Some text)
                  /\ text <> [] /\ trimmed text) segments)
  /\ (Forall transcribable raw ->
        exists segments, transcribe_loop raw [] = Ok segments).
Proof.
  split; [|apply transcribe_loop_total].
  intros segments H. destruct (transcribe_loop_exact _ _ _ H) as (new & -> & Hall).
  simpl. split; [done|]. split; [symmetry; by eapply Forall2_length|].
  apply (Forall2_Forall_r _ _ _ _ Hall). apply Forall_forall.
  intros r _ seg (s & e & _ & _ & Htext & ->).
  eexists _, _, _. split; [reflexivity|]. split; [done | apply strip_trimmed].
Qed.

Lemma transcribe_loop_output_witness :
  (Forall2 rounded_from (List.filter non_blank [blank_raw_segment; hello_segment])
     [mkSegment (Some (PyFloat 1.2)) (Some (PyFloat 3.7)) (Some (str "Hello world"))]
   /\ length [mkSegment (Some (PyFloat 1.2)) (Some (PyFloat 3.7))
                (Some (str "Hello world"))]
      = length (List.filter non_blank [blank_raw_segment; hello_segment]))
  /\ exists segments,
       transcribe_loop [blank_raw_segment; hello_segment] [] = Ok segments.
Proof.
  destruct (transcribe_loop_output [blank_raw_segment; hello_segment])
    as [Hexact Htotal].
  split.
  - destruct (Hexact [mkSegment (Some (PyFloat 1.2)) (Some (PyFloat 3.7))
                        (Some (str "Hello world"))]) as (Hall & Hlen & _);
      [vm_compute; reflexivity|].
    split; [exact Hall | exact Hlen].
  - apply Htotal.
    constructor; [by left|].
    constructor; [right; split; by eexists | constructor].
Defined.

(** X7: when the converter runs on what the loop of [transcribe] returned,
    every clip carries the trimmed text of one of the raw segments, which
    had a start and an end, and there are at most as many clips as raw
    segments. *)
Theorem clips_of_transcription (raw segments : list Segment)
    (clips : list TimelineClip) :
  transcribe_loop raw [] = Ok segments ->
  segments_to_timeline_clips segments = Ok clips ->
  Forall (fun c => exists r, r ∈ raw
            /\ subtitleText c = strip (dict_get (seg_text r) [])
            /\ is_Some (seg_start r) /\ is_Some (seg_end r)) clips
  /\ length clips <= length raw.
Proof.
  intros Hloop Hconv.
  destruct (transcribe_loop_Ok _ _ _ Hloop) as (kept & new & -> & Hsub & Hall).
  simpl in *. split.
  - eapply Forall_impl; [by apply emitted_clips_origin|].
    intros c (seg & Hin & Hc). simpl in Hc.
    destruct (spec_clip_Some _ _ Hc) as (d & _ & _ & _ & ->). simpl.
    apply list_elem_of_lookup in Hin as [i Hi].
    destruct (Forall2_lookup_r _ _ _ _ _ Hall Hi) as (r & Hr & s & e & Hs & He & _ & ->).
    exists r. simpl. rewrite strip_idempotent, Hs, He.
    split; [|by eauto].
    apply sublist_subseteq in Hsub. apply Hsub.
    apply list_elem_of_lookup. by exists i.
  - pose proof (clips_no_more_than_segments _ _ Hconv) as Hlen.
    apply Forall2_length in Hall. apply sublist_length in Hsub. lia.
Qed.

Lemma clips_of_transcription_witness :
  Forall (fun c => exists r, r ∈ [blank_raw_segment; hello_segment; still_segment]
            /\ subtitleText c = strip (dict_get (seg_text r) [])
            /\ is_Some (seg_start r) /\ is_Some (seg_end r)) [hello_clip]
  /\ length [hello_clip] <= length [blank_raw_segment; hello_segment; still_segment].
Proof.
  apply (clips_of_transcription [blank_raw_segment; hello_segment; still_segment]
           [mkSegment (Some (PyFloat 1.2)) (Some (PyFloat 3.7)) (Some (str "Hello world"));
            still_segment]).
  - vm_compute; reflexivity.
  - vm_compute; reflexivity.
Defined.

Lemma transcribe_body_Raise segments seg exc :
  transcribe_body segments seg = Raise exc ->
  ~ transcribable seg
  /\ exc_class exc = KeyError
  /\ (exc_str exc = str "'start'" \/ exc_str exc = str "'end'")
  /\ (seg_start seg = None -> exc_str exc = str "'start'").
Proof.
  unfold transcribe_body, transcribable.
  destruct (strip (dict_get (seg_text seg) [])) as [|c text]; simpl; [discriminate|].
  destruct (seg_start seg) as [s|]; simpl.
  - destruct (seg_end seg) as [e|]; simpl; [discriminate|].
    intros [= <-]. split; [intros [|[_ [? ?]]]; discriminate|].
    split; [done|]. split; [right; reflexivity | discriminate].
  - intros [= <-]. split; [intros [|[[? ?] _]]; discriminate|].
    split; [done|]. split; [left; reflexivity | intros _; reflexivity].
Qed.

(** X8: the loop of [transcribe] returns exactly when every raw segment has
    a blank text or both a start and an end -- a blank one is passed over
    before its bounds are read; otherwise it raises a [KeyError] naming
    ['start'] or ['end']. *)
Theorem transcribe_loop_returns_iff (raw : list Segment) :
  ((exists segments, transcribe_loop raw [] = Ok segments) <-> Forall transcribable raw)
  /\ forall exc, transcribe_loop raw [] = Raise exc ->
       exc_class exc = KeyError
       /\ (exc_str exc = str "'start'" \/ exc_str exc = str "'end'").
Proof.
  generalize (@nil Segment).
  induction raw as [|seg rest IH]; intros acc; simpl.
  - split; [split; [constructor | eauto] | discriminate].
  - destruct (transcribe_body acc seg) as [acc'|exc] eqn:Hbody; simpl.
    + destruct (IH acc') as [[Hok Hall] Hexc]. split; [|done]. split.
      * intros H. constructor; [|by apply Hok].
        destruct (transcribe_body_Ok _ _ _ Hbody) as [[Hb _]|(seg' & Hr & _)].
        -- by left.
        -- destruct Hr as (s & e & Hs & He & _). right. rewrite Hs, He; eauto.
      * intros H. inversion H; subst. by apply Hall.
    + destruct (transcribe_body_Raise _ _ _ Hbody) as (Hnot & Hclass & Hstr & _).
      split.
      * split; [intros [? ?]; discriminate|]. intros H. by inversion H.
      * by intros exc' [= <-].
Qed.

Lemma transcribe_loop_returns_iff_witness :
  (exists segments,
     transcribe_loop [blank_raw_segment; hello_segment] [] = Ok segments)
  /\ exc_class (mkExc KeyError (str "'end'") [str "handle_transcribe"; str "transcribe"])
     = KeyError.
Proof.
  pose proof (transcribe_loop_returns_iff [blank_raw_segment; hello_segment]) as [Hiff _].
  pose proof (transcribe_loop_returns_iff [hello_segment; endless_raw_segment]) as [_ Hexc].
  split.
  - apply Hiff. constructor; [by left|].
    constructor; [right; split; eexists; reflexivity | constructor].
  - apply (Hexc _). vm_compute; reflexivity.
Defined.

(** What [get_model] does, by the state of the cache and the outcome of
    [whisper.load_model]. *)
Lemma get_model_spec env w r w1 :
  get_model env w = (r, w1) ->
  fs w1 = fs w /\ stderr w1 = stderr w
  /\ ((exists m, _model w = Some m /\ r = Ok m /\ w1 = w)
      \/ (_model w = None /\ load_model_raises env = None
          /\ r = Ok (LoadedModel MODEL_NAME)
          /\ _model w1 = Some (LoadedModel MODEL_NAME))
      \/ (_model w = None /\ exists exc, load_model_raises env = Some exc
          /\ r = Raise exc /\ _model w1 = None)).
Proof.
  unfold get_model.
  destruct (_model w) as [m|] eqn:Hm.
  - intros [= <- <-]. split; [done|]. split; [done|]. left. by exists m.
  - unfold bind, print, load_model, set_model, raise, ret. simpl.
    destruct (load_model_raises env) as [exc|] eqn:Hload; simpl.
    + intros [= <- <-]. split; [done|]. split; [done|]. right. right.
      split; [done|]. by exists exc.
    + intros [= <- <-]. split; [done|]. split; [done|]. right. by left.
Qed.

(** X9: once [get_model] has returned a model, that model is cached: a
    later call returns the same model and changes nothing, whatever
    [whisper.load_model] would do then. *)
Theorem get_model_caches (env : Env) (w : World) (m : WhisperModel) (w1 : World) :
  get_model env w = (Ok m, w1) ->
  _model w1 = Some m
  /\ forall env', get_model env' w1 = (Ok m, w1).
Proof.
  intros H.
  assert (Hm : _model w1 = Some m).
  { destruct (get_model_spec _ _ _ _ H)
      as (_ & _ & [(m' & Hm & [= <-] & ->)|[(_ & _ & [= <-] & Hm)|(_ & exc & _ & [=] & _)]]);
      done. }
  split; [done|]. intros env'. unfold get_model. by rewrite Hm.
Qed.

Lemma get_model_caches_witness :
  _model (snd (get_model good_env fresh_world)) = Some (LoadedModel MODEL_NAME)
  /\ forall env',
       get_model env' (snd (get_model good_env fresh_world))
       = (Ok (LoadedModel MODEL_NAME), snd (get_model good_env fresh_world)).
Proof.
  apply (get_model_caches good_env fresh_world). reflexivity.
Defined.

(** X10: when loading the model fails, [get_model] raises the exception of
    [whisper.load_model] and the cache stays empty, so that the next call
    loads again and returns the model if loading then succeeds. *)
Theorem get_model_failure_not_cached (env : Env) (w : World) (exc : PyExc)
    (w1 : World) :
  get_model env w = (Raise exc, w1) ->
  load_model_raises env = Some exc
  /\ _model w1 = None
  /\ forall env', load_model_raises env' = None ->
       fst (get_model env' w1) = Ok (LoadedModel MODEL_NAME).
Proof.
  intros H.
  destruct (get_model_spec _ _ _ _ H)
    as (_ & _ & [(m' & _ & [=] & _)|[(_ & _ & [=] & _)|(_ & exc' & Hload & [= <-] & Hm)]]).
  split; [done|]. split; [done|].
  intros env' Hload'. unfold get_model. rewrite Hm.
  unfold bind, print, load_model, set_model, ret. simpl. by rewrite Hload'.
Qed.

Lemma get_model_failure_not_cached_witness :
  fst (get_model good_env
         (snd (get_model (mkEnv (str "/tmp") None [] None (Some out_of_memory)
                            (fun _ _ _ => Ok two_segments) None ∅ whisper_prints) fresh_world)))
  = Ok (LoadedModel MODEL_NAME).
Proof.
  pose proof (get_model_failure_not_cached
                (mkEnv (str "/tmp") None [] None (Some out_of_memory)
                   (fun _ _ _ => Ok two_segments) None ∅ whisper_prints)
                fresh_world out_of_memory
                (snd (get_model (mkEnv (str "/tmp") None [] None (Some out_of_memory)
                                   (fun _ _ _ => Ok two_segments) None ∅ whisper_prints) fresh_world)))
    as Hretry.
  destruct Hretry as (_ & _ & Hnext); [reflexivity|].
  apply Hnext. reflexivity.
Defined.

(** X11: [transcribe] performs no file operation, changes no file outside
    Whisper's cache and prints no traceback; with the model already cached
    it leaves the cache and the model as they are and adds to stdout exactly
    what the external model prints; when it returns, a model is cached. *)
Theorem transcribe_world (env : Env) (audio_path : pystr) (language : option pystr)
    (w : World) (r : result (list Segment)) (w' : World) :
  transcribe env audio_path language w = (r, w') ->
  fs w' = fs w /\ stderr w' = stderr w /\ file_ops w' = file_ops w
  /\ (forall m, _model w = Some m ->
        _model w' = Some m /\ whisper_cache w' = whisper_cache w
        /\ stdout w' = stdout w
                       ++ model_prints env audio_path (fs w !! audio_path)
                            (or_None language))
  /\ (forall segments, r = Ok segments -> is_Some (_model w')).
Proof.
  intros H. destruct (transcribe_effects _ _ _ _ _ _ H) as (? & ? & ? & ? & _ & ?).
  by split_conj.
Qed.

Lemma transcribe_world_witness :
  whisper_cache (snd (transcribe failing_model_env (str "/tmp/tmpq7ab.mov") None busy_world))
  = whisper_cache busy_world
  /\ stdout (snd (transcribe failing_model_env (str "/tmp/tmpq7ab.mov") None busy_world))
     = [str "earlier"; str "Detected language: English"].
Proof.
  pose proof (transcribe_world failing_model_env (str "/tmp/tmpq7ab.mov")
                None busy_world (Raise out_of_memory)
                (snd (transcribe failing_model_env (str "/tmp/tmpq7ab.mov")
                        None busy_world))) as Hworld.
  destruct Hworld as (_ & _ & _ & Hsame & _); [reflexivity|].
  destruct (Hsame (LoadedModel MODEL_NAME) eq_refl) as (_ & Hcache & Hout).
  split; [exact Hcache | exact Hout].
Defined.

(** ** Further properties of main.py *)

(** The ways a call of [handle_transcribe] can go. *)
Lemma handle_transcribe_cases env request w r w' :
  handle_transcribe env request w = (r, w') ->
  (exists response, r = Ok response /\ status_code response = 400%Z /\ w' = w)
  \/ (exists exc, r = Raise exc
        /\ (exc_class exc = OSError \/ exc_class exc = ValueError) /\ w' = w)
  \/ (exists uploaded tmp_name w1 w2 response,
        validated request uploaded
        /\ NamedTemporaryFile env (upload_suffix uploaded) w = (Ok tmp_name, w1)
        /\ process env request uploaded (upload_suffix uploaded) tmp_name w1
           = (Ok response, w2)
        /\ r = Ok response /\ status_code response = 200%Z
        /\ w' = snd (cleanup env tmp_name w2))
  \/ (exists uploaded tmp_name w1 w2 exc,
        validated request uploaded
        /\ NamedTemporaryFile env (upload_suffix uploaded) w = (Ok tmp_name, w1)
        /\ process env request uploaded (upload_suffix uploaded) tmp_name w1
           = (Raise exc, w2)
        /\ r = Ok (mkResponse 500
                     (ErrorBody (str "Transcription failed: " ++ exc_str exc)))
        /\ w' = snd (cleanup env tmp_name (snd (print_exc exc w2)))).
Proof.
  intros Hrun.
  destruct (files_file request) as [uploaded|] eqn:Hfile.
  2: { unfold handle_transcribe in Hrun. rewrite Hfile in Hrun.
       injection Hrun as <- <-. left. by eexists. }
  destruct (str_truthy (dict_get (filename uploaded) [])) eqn:Hname.
  2: { unfold handle_transcribe in Hrun. rewrite Hfile, Hname in Hrun.
       injection Hrun as <- <-. left. by eexists. }
  assert (Hvalid : validated request uploaded) by done.
  destruct (NamedTemporaryFile env (upload_suffix uploaded) w)
    as [[tmp_name|exc] w1] eqn:Htmp.
  - rewrite (handle_transcribe_after_tmp _ _ _ _ _ _ Hvalid Htmp) in Hrun.
    destruct (process env request uploaded (upload_suffix uploaded) tmp_name w1)
      as [[response|exc] w2] eqn:Hprocess.
    + injection Hrun as <- <-. right. right. left.
      destruct (process_Ok _ _ _ _ _ _ _ _ Hprocess) as (? & ? & _ & Hresp).
      subst response. eexists uploaded, tmp_name, w1, w2, _. by split_conj.
    + injection Hrun as <- <-. right. right. right.
      exists uploaded, tmp_name, w1, w2, exc. by split_conj.
  - rewrite (handle_transcribe_tmp_fails _ _ _ _ _ _ Hvalid Htmp) in Hrun.
    injection Hrun as <- <-.
    destruct (NamedTemporaryFile_Raise _ _ _ _ _ Htmp) as [-> Hclass].
    right. left. by exists exc.
Qed.

(** The world after a call that got as far as creating the temporary file
    ([wx] is the world after the [try] clause, or after the traceback was
    printed): the files are as before when [os.unlink] succeeds, with the
    temporary file left behind when it fails; Whisper's cache grew by a
    download or not at all. *)
Lemma files_after_cleanup env request uploaded w tmp_name w1 r w2 wx :
  NamedTemporaryFile env (upload_suffix uploaded) w = (Ok tmp_name, w1) ->
  process env request uploaded (upload_suffix uploaded) tmp_name w1 = (r, w2) ->
  fs wx = fs w2 ->
  whisper_cache wx = whisper_cache w2 ->
  fs w !! tmp_name = None
  /\ (unlink_error env = None -> fs (snd (cleanup env tmp_name wx)) = fs w)
  /\ (is_Some (unlink_error env) ->
        exists bytes, fs (snd (cleanup env tmp_name wx)) = <[tmp_name := bytes]> (fs w))
  /\ (whisper_cache (snd (cleanup env tmp_name wx)) = whisper_cache w
      \/ whisper_cache (snd (cleanup env tmp_name wx))
         = load_model_downloads env ∪ whisper_cache w)
  /\ (forall m, _model w = Some m ->
        whisper_cache (snd (cleanup env tmp_name wx)) = whisper_cache w).
Proof.
  intros Htmp Hprocess Hwx Hcx.
  destruct (NamedTemporaryFile_Ok _ _ _ _ _ Htmp) as (Hfree & -> & _).
  destruct (process_world _ _ _ _ _ _ _ _ Hprocess)
    as (_ & Hfs & _ & Hkept & Hcache & _). simpl in Hfs, Hkept, Hcache.
  destruct (cleanup_world env tmp_name wx)
    as (w' & -> & _ & _ & _ & Hc & Hdel & Hkeep & _).
  simpl. rewrite Hwx in Hdel, Hkeep. rewrite Hc, Hcx.
  split_conj; [done | | | done |].
  - intros Hunlink. rewrite (Hdel Hunlink), Hfs.
    destruct (save_raises env); rewrite ?delete_insert_eq; by apply delete_id.
  - intros Hunlink. rewrite (Hkeep Hunlink), Hfs.
    destruct (save_raises env); [by eexists|].
    eexists. by rewrite insert_insert_eq.
  - intros m Hm. by destruct (Hkept m Hm).
Qed.

Lemma files_restored env request w r w' :
  handle_transcribe env request w = (r, w') ->
  unlink_error env = None ->
  fs w' = fs w.
Proof.
  intros Hrun Hunlink.
  destruct (handle_transcribe_cases _ _ _ _ _ Hrun)
    as [(? & _ & _ & ->)|[(? & _ & _ & ->)|
        [(up & tmp & w1 & w2 & ? & _ & Htmp & Hp & _ & _ & ->)
        |(up & tmp & w1 & w2 & exc & _ & Htmp & Hp & _ & ->)]]]; [done..| |].
  - by apply (files_after_cleanup _ _ _ _ _ _ _ _ w2 Htmp Hp).
  - by apply (files_after_cleanup _ _ _ _ _ _ _ _ (snd (print_exc exc w2)) Htmp Hp).
Qed.

(** Whisper's cache after a call: grown by the download of the checkpoint or
    as before, and as before when the model was cached. *)
Lemma cache_after_request env request w r w' :
  handle_transcribe env request w = (r, w') ->
  (whisper_cache w' = whisper_cache w
   \/ whisper_cache w' = load_model_downloads env ∪ whisper_cache w)
  /\ (forall m, _model w = Some m -> whisper_cache w' = whisper_cache w).
Proof.
  intros Hrun.
  destruct (handle_transcribe_cases _ _ _ _ _ Hrun)
    as [(? & _ & _ & ->)|[(? & _ & _ & ->)|
        [(up & tmp & w1 & w2 & ? & _ & Htmp & Hp & _ & _ & ->)
        |(up & tmp & w1 & w2 & exc & _ & Htmp & Hp & _ & ->)]]];
    [by split; [left|] | by split; [left|] | |].
  - by destruct (files_after_cleanup _ _ _ _ _ _ _ _ w2 Htmp Hp eq_refl eq_refl)
      as (_ & _ & _ & ? & ?).
  - by destruct (files_after_cleanup _ _ _ _ _ _ _ _ (snd (print_exc exc w2))
                   Htmp Hp eq_refl eq_refl) as (_ & _ & _ & ? & ?).
Qed.

(** X12: when [os.unlink] does not fail, a call of [handle_transcribe]
    leaves the files outside Whisper's cache exactly as it found them,
    whatever the request, the outcome of the transcription and the response;
    Whisper's cache is as before or has gained the checkpoint files that
    loading the model downloads, and it is as before when the model was
    already cached. *)
Theorem handle_transcribe_restores_files (env : Env) (request : Request) (w : World)
    (r : result Response) (w' : World) :
  handle_transcribe env request w = (r, w') ->
  unlink_error env = None ->
  fs w' = fs w
  /\ (whisper_cache w' = whisper_cache w
      \/ whisper_cache w' = load_model_downloads env ∪ whisper_cache w)
  /\ (forall m, _model w = Some m -> whisper_cache w' = whisper_cache w).
Proof.
  intros Hrun Hunlink. split; [by apply (files_restored _ _ _ _ _ Hrun)|].
  apply (cache_after_request _ _ _ _ _ Hrun).
Qed.

Lemma handle_transcribe_restores_files_witness :
  fs (snd (handle_transcribe good_env upload_request fresh_world)) = fs fresh_world
  /\ (whisper_cache (snd (handle_transcribe good_env upload_request fresh_world))
      = whisper_cache fresh_world
      \/ whisper_cache (snd (handle_transcribe good_env upload_request fresh_world))
         = load_model_downloads good_env ∪ whisper_cache fresh_world).
Proof.
  destruct (handle_transcribe_restores_files good_env upload_request fresh_world
              (fst (handle_transcribe good_env upload_request fresh_world))
              (snd (handle_transcribe good_env upload_request fresh_world)))
    as (Hfs & Hcache & _).
  - by destruct (handle_transcribe good_env upload_request fresh_world).
  - reflexivity.
  - split; [exact Hfs | exact Hcache].
Defined.

(** X13: whatever [os.unlink] does, a call of [handle_transcribe] changes
    or removes no file that existed outside Whisper's cache: afterwards
    those files are as before, or there is one more, under a name that was
    free -- the temporary file that could not be removed.  Whisper's cache
    is as before or has gained the checkpoint files that loading the model
    downloads. *)
Theorem handle_transcribe_leaves_at_most_tmp (env : Env) (request : Request)
    (w : World) (r : result Response) (w' : World) :
  handle_transcribe env request w = (r, w') ->
  (fs w' = fs w
   \/ exists tmp_name bytes,
        fs w !! tmp_name = None /\ fs w' = <[tmp_name := bytes]> (fs w))
  /\ (whisper_cache w' = whisper_cache w
      \/ whisper_cache w' = load_model_downloads env ∪ whisper_cache w).
Proof.
  intros Hrun. split; [|by apply (cache_after_request _ _ _ _ _ Hrun)].
  destruct (handle_transcribe_cases _ _ _ _ _ Hrun)
    as [(? & _ & _ & ->)|[(? & _ & _ & ->)|
        [(up & tmp & w1 & w2 & ? & _ & Htmp & Hp & _ & _ & ->)
        |(up & tmp & w1 & w2 & exc & _ & Htmp & Hp & _ & ->)]]]; [by left..| |].
  - destruct (files_after_cleanup _ _ _ _ _ _ _ _ w2 Htmp Hp eq_refl eq_refl)
      as (Hfree & Hgone & Hleft & _).
    destruct (unlink_error env) as [msg|]; [|by left; apply Hgone].
    destruct Hleft as [bytes Hbytes]; [by eexists|]. right. by exists tmp, bytes.
  - destruct (files_after_cleanup _ _ _ _ _ _ _ _ (snd (print_exc exc w2))
                Htmp Hp eq_refl eq_refl) as (Hfree & Hgone & Hleft & _).
    destruct (unlink_error env) as [msg|]; [|by left; apply Hgone].
    destruct Hleft as [bytes Hbytes]; [by eexists|]. right. by exists tmp, bytes.
Qed.

Lemma handle_transcribe_leaves_at_most_tmp_witness :
  fs (snd (handle_transcribe failing_model_env upload_request busy_world)) = fs busy_world
  \/ exists tmp_name bytes,
       fs busy_world !! tmp_name = None
       /\ fs (snd (handle_transcribe failing_model_env upload_request busy_world))
          = <[tmp_name := bytes]> (fs busy_world).
Proof.
  apply (handle_transcribe_leaves_at_most_tmp failing_model_env upload_request busy_world
           (fst (handle_transcribe failing_model_env upload_request busy_world))).
  by destruct (handle_transcribe failing_model_env upload_request busy_world).
Defined.





(** X16: when the upload cannot be saved, the request is answered 500 with
    the message of that failure before the model is touched: nothing is
    printed to stdout, the cache of the model is as it was, and stderr gains
    that one exception. *)
Theorem save_failure_stops_before_model (env : Env) (request : Request)
    (uploaded : FileStorage) (w : World) (tmp_name : pystr) (w1 : World)
    (exc : PyExc) :
  validated request uploaded ->
  NamedTemporaryFile env (upload_suffix uploaded) w = (Ok tmp_name, w1) ->
  save_raises env = Some exc ->
  exists w',
    handle_transcribe env request w
    = (Ok (mkResponse 500 (ErrorBody (str "Transcription failed: " ++ exc_str exc))), w')
    /\ _model w' = _model w /\ stdout w' = stdout w
    /\ stderr w' = stderr w ++ [exc].
Proof.
  intros Hvalid Htmp Hsave.
  rewrite (handle_transcribe_after_tmp _ _ _ _ _ _ Hvalid Htmp).
  rewrite (process_save_fails env request uploaded _ tmp_name w1 exc Hsave).
  eexists. split; [reflexivity|].
  destruct (NamedTemporaryFile_Ok _ _ _ _ _ Htmp) as (_ & -> & _).
  match goal with |- context [cleanup env tmp_name ?wx] =>
    destruct (cleanup_world env tmp_name wx) as (wc & -> & Hm & Hout & Herr & _)
  end.
  simpl. by rewrite Hm, Hout, Herr.
Qed.

Lemma save_failure_stops_before_model_witness :
  exists w',
    handle_transcribe read_only_env upload_request fresh_world
    = (Ok (mkResponse 500
             (ErrorBody (str "Transcription failed: [Errno 30] Read-only file system"))), w')
    /\ _model w' = None /\ stdout w' = [].
Proof.
  destruct (save_failure_stops_before_model read_only_env upload_request clip_upload
              fresh_world (str "/tmp/tmpk3x9.mov")
              (snd (NamedTemporaryFile read_only_env (upload_suffix clip_upload) fresh_world))
              (mkExc OSError (str "[Errno 30] Read-only file system") []))
    as (w' & Hrun & Hm & Hout & _).
  - split; reflexivity.
  - vm_compute; reflexivity.
  - reflexivity.
  - exists w'. split; [exact Hrun|]. by split.
Defined.

Lemma handle_transcribe_keeps_model env request w r w' m :
  handle_transcribe env request w = (r, w') ->
  _model w = Some m -> _model w' = Some m.
Proof.
  intros Hrun Hm.
  destruct (handle_transcribe_cases _ _ _ _ _ Hrun)
    as [(? & _ & _ & ->)|[(? & _ & _ & ->)|
        [(up & tmp & w1 & w2 & ? & _ & Htmp & Hp & _ & _ & ->)
        |(up & tmp & w1 & w2 & exc & _ & Htmp & Hp & _ & ->)]]]; [done..| |];
    destruct (NamedTemporaryFile_Ok _ _ _ _ _ Htmp) as (_ & -> & _);
    destruct (process_world _ _ _ _ _ _ _ _ Hp) as (_ & _ & _ & Hkeep & _).
  - destruct (cleanup_world env tmp w2) as (wc & -> & Hc & _).
    simpl. rewrite Hc. by apply Hkeep.
  - destruct (cleanup_world env tmp (snd (print_exc exc w2))) as (wc & -> & Hc & _).
    simpl. rewrite Hc. simpl. by apply Hkeep.
Qed.

(** X17: once a model is cached it stays cached, and the same, through any
    sequence of requests. *)
Theorem model_stays_cached (history : list Route) (w : World) (m : WhisperModel) :
  _model w = Some m -> _model (serve_all history w) = Some m.
Proof.
  unfold serve_all. revert w.
  induction history as [|route rest IH]; intros w Hm; simpl; [done|].
  apply IH. destruct route as [|env request]; simpl; [done|].
  destruct (handle_transcribe env request w) as [r w'] eqn:Hrun.
  by apply (handle_transcribe_keeps_model _ _ _ _ _ _ Hrun).
Qed.

Lemma model_stays_cached_witness :
  _model (serve_all [POST_transcribe failing_model_env upload_request; GET_health;
                     POST_transcribe disk_full_env no_file_request] busy_world)
  = Some (LoadedModel MODEL_NAME).
Proof.
  apply (model_stays_cached
           [POST_transcribe failing_model_env upload_request; GET_health;
            POST_transcribe disk_full_env no_file_request] busy_world).
  reflexivity.
Defined.

(** X18: after a 200 response of [handle_transcribe] a model is cached. *)
Theorem model_cached_after_200 (env : Env) (request : Request) (w : World)
    (response : Response) (w' : World) :
  handle_transcribe env request w = (Ok response, w') ->
  status_code response = 200%Z ->
  is_Some (_model w').
Proof.
  intros Hrun Hst.
  destruct (handle_transcribe_cases _ _ _ _ _ Hrun)
    as [(resp & [= <-] & Hst' & ->)|[(exc & [=] & _)|
        [(up & tmp & w1 & w2 & resp & _ & Htmp & Hp & [= <-] & _ & ->)
        |(up & tmp & w1 & w2 & exc & _ & Htmp & Hp & [= ->] & ->)]]];
    [congruence | | discriminate].
  destruct (process_world _ _ _ _ _ _ _ _ Hp) as (_ & _ & _ & _ & _ & Hloaded & _).
  destruct (cleanup_world env tmp w2) as (wc & -> & Hc & _).
  simpl. rewrite Hc. by eapply Hloaded.
Qed.

Lemma model_cached_after_200_witness :
  is_Some (_model (snd (handle_transcribe good_env upload_request fresh_world))).
Proof.
  apply (model_cached_after_200 good_env upload_request fresh_world
           (mkResponse 200 (ClipsBody [hello_clip] 1))).
  - vm_compute; reflexivity.
  - reflexivity.
Defined.

(** X19: through any sequence of requests in which no [os.unlink] fails, the
    files outside Whisper's cache stay exactly as they were: no request
    leaves a temporary file behind.  When a model is cached at the start,
    Whisper's cache stays as it was too, through any sequence of requests. *)
Theorem no_temporary_file_leaks (history : list Route) (w : World) :
  (Forall unlink_succeeds history -> fs (serve_all history w) = fs w)
  /\ (is_Some (_model w) ->
        whisper_cache (serve_all history w) = whisper_cache w).
Proof.
  unfold serve_all. split; revert w.
  - induction history as [|route rest IH]; intros w Hall; simpl; [done|].
    inversion Hall as [|? ? Hroute Hrest]; subst.
    rewrite (IH _ Hrest). destruct route as [|env request]; simpl; [done|].
    destruct (handle_transcribe env request w) as [r w'] eqn:Hrun.
    by apply (files_restored _ _ _ _ _ Hrun).
  - induction history as [|route rest IH]; intros w [m Hm]; simpl; [done|].
    destruct route as [|env request]; simpl; [by apply IH; exists m|].
    destruct (handle_transcribe env request w) as [r w'] eqn:Hrun. simpl.
    rewrite IH.
    + by apply (cache_after_request _ _ _ _ _ Hrun) with m.
    + exists m. by apply (handle_transcribe_keeps_model _ _ _ _ _ _ Hrun).
Qed.

Lemma no_temporary_file_leaks_witness :
  fs (serve_all [POST_transcribe good_env upload_request; GET_health;
                 POST_transcribe read_only_env upload_request] busy_world)
  = fs busy_world
  /\ whisper_cache
       (serve_all [POST_transcribe good_env upload_request; GET_health;
                   POST_transcribe read_only_env upload_request] busy_world)
     = whisper_cache busy_world.
Proof.
  destruct (no_temporary_file_leaks
              [POST_transcribe good_env upload_request; GET_health;
               POST_transcribe read_only_env upload_request] busy_world)
    as [Hfs Hcache].
  split; [apply Hfs; repeat constructor | apply Hcache; by eexists].
Defined.

Lemma transcribe_with_model env model audio_path language w :
  (forall path bytes l, l <> Some [] ->
     model path bytes l = model_transcribe env path bytes l) ->
  transcribe (with_model_transcribe env model) audio_path language w
  = transcribe env audio_path language w.
Proof.
  intros Hmodel. unfold transcribe, bind.
  change (get_model (with_model_transcribe env model) w) with (get_model env w).
  destruct (get_model env w) as [[m|exc] w1]; [|done].
  change (model_transcribe (with_model_transcribe env model)) with model.
  rewrite Hmodel; [done|].
  by destruct language as [[|c l]|].
Qed.

Lemma process_with_model env model request uploaded suffix tmp_name w :
  (forall path bytes l, l <> Some [] ->
     model path bytes l = model_transcribe env path bytes l) ->
  process (with_model_transcribe env model) request uploaded suffix tmp_name w
  = process env request uploaded suffix tmp_name w.
Proof.
  intros Hmodel. unfold process, bind.
  change (save (with_model_transcribe env model)) with (save env).
  destruct (save env uploaded tmp_name w) as [[[]|exc] wa]; [|done].
  destruct (print _ wa) as [[[]|exc] wb]; [|done].
  by rewrite transcribe_with_model.
Qed.

(** X20: the external model is never called with an empty language: what
    it would answer to one has no effect on [handle_transcribe], and a
    request whose language field is empty is handled as one without that
    field. *)
Theorem empty_language_is_no_language (env : Env)
    (model : pystr -> option (list N) -> option pystr -> result WhisperResult)
    (request : Request) (w : World) :
  (forall path bytes language, language <> Some [] ->
     model path bytes language = model_transcribe env path bytes language) ->
  handle_transcribe (with_model_transcribe env model) request w
  = handle_transcribe env request w
  /\ handle_transcribe env (mkRequest (files_file request) (Some [])) w
     = handle_transcribe env (mkRequest (files_file request) None) w.
Proof.
  intros Hmodel. split; [|reflexivity].
  unfold handle_transcribe.
  destruct (files_file request) as [uploaded|]; [|done].
  destruct (negb _); [done|]. cbv zeta. unfold bind.
  change (NamedTemporaryFile (with_model_transcribe env model))
    with (NamedTemporaryFile env).
  destruct (NamedTemporaryFile env (upload_suffix uploaded) w) as [[tmp_name|exc] w1];
    [|done].
  unfold try_finally, try_except.
  rewrite process_with_model by done.
  by change (cleanup (with_model_transcribe env model)) with (cleanup env).
Qed.

Lemma empty_language_is_no_language_witness :
  handle_transcribe
    (with_model_transcribe good_env
       (fun _ _ language =>
          match language with
          | Some [] => Raise out_of_memory
          | _ => Ok two_segments
          end))
    (mkRequest (Some clip_upload) (Some [])) busy_world
  = handle_transcribe good_env (mkRequest (Some clip_upload) (Some [])) busy_world.
Proof.
  apply (empty_language_is_no_language good_env
           (fun _ _ language =>
              match language with
              | Some [] => Raise out_of_memory
              | _ => Ok two_segments
              end)
           (mkRequest (Some clip_upload) (Some [])) busy_world).
  intros path bytes [[|c l]|] H; done.
Defined.

(** *** The suffix of the temporary file *)

(** [rfind] returns [-1] when the code point does not occur, and otherwise
    the index after which it does not occur again. *)
Lemma rfind_from_spec c p : forall i, (0 <= i)%Z ->
  (rfind_from c p i = (-1)%Z /\ c ∉ p)
  \/ ((i <= rfind_from c p i)%Z
      /\ exists t, drop (Z.to_nat (rfind_from c p i - i)) p = c :: t /\ c ∉ t).
Proof.
  induction p as [|x p IH]; intros i Hi; simpl.
  - left. split; [done | apply not_elem_of_nil].
  - assert (Hi' : (0 <= i + 1)%Z) by lia.
    destruct (IH _ Hi') as [[-> Hnot]|[Hle (t & Hdrop & Ht)]].
    + simpl. destruct (x =? c)%N eqn:Hx.
      * apply N.eqb_eq in Hx as ->. right. split; [lia|].
        rewrite Z.sub_diag. by exists p.
      * left. split; [done|]. apply not_elem_of_cons.
        split; [|done]. apply N.eqb_neq in Hx. congruence.
    + destruct (0 <=? rfind_from c p (i + 1))%Z eqn:Hpos;
        [|apply Z.leb_gt in Hpos; lia].
      right. split; [lia|]. exists t. split; [|done].
      replace (Z.to_nat (rfind_from c p (i + 1) - i))
        with (S (Z.to_nat (rfind_from c p (i + 1) - (i + 1)))) by lia.
      done.
Qed.

Lemma rfind_spec p c :
  (rfind p c = (-1)%Z /\ c ∉ p)
  \/ ((0 <= rfind p c)%Z
      /\ exists t, drop (Z.to_nat (rfind p c)) p = c :: t /\ c ∉ t).
Proof.
  unfold rfind. destruct (rfind_from_spec c p 0 (Z.le_refl 0)) as [?|[? Ht]]; [by left|].
  right. split; [done|]. by rewrite Z.sub_0_r in Ht.
Qed.

(** [os.path.splitext(p)[1]] is empty, or it is the end of [p] from a dot
    on, without another dot and without a separator. *)
Lemma splitext_ext_shape p :
  (exists root, p = root ++ splitext_ext p)
  /\ (splitext_ext p = []
      \/ exists t, splitext_ext p = 46%N :: t /\ (46%N ∉ t) /\ (47%N ∉ t)).
Proof.
  unfold splitext_ext.
  destruct (rfind p 47 <? rfind p 46)%Z eqn:Hlt;
    [|split; [exists p; by rewrite app_nil_r | by left]].
  destruct (existsb _ _);
    [|split; [exists p; by rewrite app_nil_r | by left]].
  apply Z.ltb_lt in Hlt.
  split; [exists (take (Z.to_nat (rfind p 46)) p); by rewrite take_drop|].
  right.
  destruct (rfind_spec p 46) as [[Hdot _]|[Hdot (t & Hdrop & Ht)]].
  { destruct (rfind_spec p 47) as [[? _]|[? _]]; lia. }
  exists t. split; [done|]. split; [done|].
  destruct (rfind_spec p 47) as [[_ Hsep]|[Hsep (t' & Hdrop' & Ht')]].
  - intros Hin. apply Hsep.
    apply (sublist_subseteq _ _ (sublist_drop p (Z.to_nat (rfind p 46)))).
    rewrite Hdrop. by right.
  - intros Hin. apply Ht'.
    assert (Hk : drop (Z.to_nat (rfind p 46)) p
                 = drop (Z.to_nat (rfind p 46) - S (Z.to_nat (rfind p 47))) t').
    { replace (Z.to_nat (rfind p 46))
        with (Z.to_nat (rfind p 47)
              + S (Z.to_nat (rfind p 46) - S (Z.to_nat (rfind p 47)))) at 1 by lia.
      by rewrite <- drop_drop, Hdrop'. }
    apply (sublist_subseteq _ _
             (sublist_drop t' (Z.to_nat (rfind p 46) - S (Z.to_nat (rfind p 47))))).
    rewrite <- Hk, Hdrop. by right.
Qed.

Lemma upload_suffix_dotted uploaded :
  exists t, upload_suffix uploaded = 46%N :: t /\ (46%N ∉ t) /\ (47%N ∉ t).
Proof.
  unfold upload_suffix.
  destruct (splitext_ext_shape (dict_get (filename uploaded) []))
    as [_ [Hempty|(t & Hext & Hdot & Hsep)]].
  - rewrite Hempty. simpl. exists (str "mp4"). split; [done|].
    split; intros H; vm_compute in H;
      repeat (apply elem_of_cons in H as [H|H]; [discriminate|]);
      by apply elem_of_nil in H.
  - rewrite Hext. simpl. by exists t.
Qed.

(** X21: whatever file name the client sends, the suffix given to the
    temporary file begins with a dot and holds no other dot and no path
    separator; it is [.mp4] or the end of the file name. *)
Theorem upload_suffix_shape (uploaded : FileStorage) :
  (exists t, upload_suffix uploaded = 46%N :: t /\ (46%N ∉ t) /\ (47%N ∉ t))
  /\ (upload_suffix uploaded = str ".mp4"
      \/ exists root, dict_get (filename uploaded) [] = root ++ upload_suffix uploaded).
Proof.
  split; [apply upload_suffix_dotted|].
  unfold upload_suffix.
  destruct (splitext_ext_shape (dict_get (filename uploaded) [])) as [Hroot _].
  destruct (splitext_ext _) as [|c ext]; [by left | by right].
Qed.

(** X22: when the names [tempfile] draws hold no separator, the temporary
    file is created directly in the temporary directory: its name is that
    directory joined with a single path component, whatever file name the
    client sent. *)
Theorem temporary_file_in_tempdir (env : Env) (uploaded : FileStorage) (w : World)
    (tmp_name : pystr) (w1 : World) :
  NamedTemporaryFile env (upload_suffix uploaded) w = (Ok tmp_name, w1) ->
  Forall (fun name => 47%N ∉ name) (tmp_names env) ->
  exists base, tmp_name = path_join (tempdir env) base /\ (47%N ∉ base).
Proof.
  intros Htmp Hnames.
  destruct (NamedTemporaryFile_Ok _ _ _ _ _ Htmp) as (_ & _ & name & Hin & ->).
  eexists. split; [reflexivity|].
  destruct (upload_suffix_dotted uploaded) as (t & -> & _ & Hsep).
  rewrite Forall_forall in Hnames. specialize (Hnames name Hin).
  intros H. rewrite !elem_of_app in H.
  destruct H as [H|[H|H]]; [|done|].
  - vm_compute in H.
    repeat (apply elem_of_cons in H as [H|H]; [discriminate|]).
    by apply elem_of_nil in H.
  - apply elem_of_cons in H as [H|H]; [discriminate | done].
Qed.

Lemma temporary_file_in_tempdir_witness :
  exists base, str "/tmp/tmpq7ab.mov" = path_join (tempdir good_env) base /\ (47%N ∉ base).
Proof.
  apply (temporary_file_in_tempdir good_env
           (mkFileStorage (Some (str "../../etc/holiday.clip.mov")) [])
           busy_world (str "/tmp/tmpq7ab.mov")
           (snd (NamedTemporaryFile good_env
                   (upload_suffix (mkFileStorage (Some (str "../../etc/holiday.clip.mov")) []))
                   busy_world))).
  - vm_compute; reflexivity.
  - repeat constructor; intros H; vm_compute in H;
      repeat (apply elem_of_cons in H as [H|H]; [discriminate|]);
      by apply elem_of_nil in H.
Defined.

Lemma or_None_idempotent language : or_None (or_None language) = or_None language.
Proof. by destruct language as [[|c l]|]. Qed.

(** What [transcribe] asks of the external model: the file at the path as
    the world has it, and the language, [None] for an empty one. *)
Lemma transcribe_reads env model audio_path language w :
  model audio_path (fs w !! audio_path) (or_None language)
  = model_transcribe env audio_path (fs w !! audio_path) (or_None language) ->
  transcribe (with_model_transcribe env model) audio_path language w
  = transcribe env audio_path language w.
Proof.
  intros Hmodel. unfold transcribe, bind.
  change (get_model (with_model_transcribe env model) w) with (get_model env w).
  destruct (get_model env w) as [[m|exc] w1] eqn:Hget; [|done].
  destruct (get_model_spec _ _ _ _ Hget) as (Hfs & _).
  change (model_transcribe (with_model_transcribe env model)) with model.
  rewrite Hfs. unfold or_None in Hmodel. by rewrite Hmodel.
Qed.

Lemma transcribe_returns env audio_path language w result segments :
  load_model_raises env = None \/ is_Some (_model w) ->
  model_transcribe env audio_path (fs w !! audio_path) (or_None language) = Ok result ->
  transcribe_loop (dict_get (result_segments result) []) [] = Ok segments ->
  fst (transcribe env audio_path language w) = Ok segments.
Proof.
  intros Hload Hmodel Hloop. unfold transcribe, bind.
  destruct (get_model env w) as [[m|exc] w1] eqn:Hget.
  - destruct (get_model_spec _ _ _ _ Hget) as (Hfs & _).
    rewrite Hfs. unfold or_None in Hmodel. rewrite Hmodel. unfold lift.
    by rewrite Hloop.
  - destruct (get_model_spec _ _ _ _ Hget)
      as (_ & _ & [(? & _ & [=] & _)|[(_ & _ & [=] & _)|(Hnone & ? & Hraise & _)]]).
    destruct Hload as [Hload|[? Hsome]]; congruence.
Qed.

(** X23: the external model is asked one thing only: the temporary file,
    holding the bytes of the upload, with the language of the request
    ([None] for an empty or absent one).  Another model that gives the same
    answer to that leads to the same outcome and the same world. *)
Theorem model_reads_the_upload (env : Env)
    (model : pystr -> option (list N) -> option pystr -> result WhisperResult)
    (request : Request) (uploaded : FileStorage) (w : World) (tmp_name : pystr)
    (w1 : World) :
  validated request uploaded ->
  NamedTemporaryFile env (upload_suffix uploaded) w = (Ok tmp_name, w1) ->
  model tmp_name (Some (stream uploaded)) (or_None (form_language request))
  = model_transcribe env tmp_name (Some (stream uploaded))
      (or_None (form_language request)) ->
  handle_transcribe (with_model_transcribe env model) request w
  = handle_transcribe env request w.
Proof.
  intros Hvalid Htmp Hmodel.
  rewrite (handle_transcribe_after_tmp _ _ _ _ _ _ Hvalid Htmp).
  rewrite (handle_transcribe_after_tmp (with_model_transcribe env model)
             _ _ _ _ _ Hvalid Htmp).
  change (cleanup (with_model_transcribe env model)) with (cleanup env).
  assert (Hprocess :
    process (with_model_transcribe env model) request uploaded
      (upload_suffix uploaded) tmp_name w1
    = process env request uploaded (upload_suffix uploaded) tmp_name w1).
  { unfold process, bind.
    change (save (with_model_transcribe env model)) with (save env).
    unfold save. destruct (save_raises env) as [exc|]; [done|].
    unfold set_fs, log_op, print, bind. cbv beta iota.
    rewrite transcribe_reads; [done|].
    simpl fs. rewrite lookup_insert_eq. by rewrite or_None_idempotent. }
  by rewrite Hprocess.
Qed.

Lemma model_reads_the_upload_witness :
  handle_transcribe
    (with_model_transcribe good_env
       (fun path bytes language =>
          match bytes, language with
          | Some [82%N; 73%N; 70%N; 70%N], Some [101%N; 110%N] => Ok two_segments
          | _, _ => Raise out_of_memory
          end))
    upload_request busy_world
  = handle_transcribe good_env upload_request busy_world.
Proof.
  apply (model_reads_the_upload good_env
           (fun path bytes language =>
              match bytes, language with
              | Some [82%N; 73%N; 70%N; 70%N], Some [101%N; 110%N] => Ok two_segments
              | _, _ => Raise out_of_memory
              end)
           upload_request clip_upload busy_world (str "/tmp/tmpq7ab.mov")
           (snd (NamedTemporaryFile good_env (upload_suffix clip_upload) busy_world))).
  - split; reflexivity.
  - vm_compute; reflexivity.
  - reflexivity.
Defined.

(** X24: the successful run, end to end.  When the temporary file is
    created, the upload is saved, the model is cached or loads, the model's
    segments pass the loop of [transcribe] and the converter, and the clips
    serialise (no int among their numbers has more than 4300 digits), the
    response is 200 with exactly the converter's clips and their number; a
    result of the model without ['segments'] counts as no segment. *)
Theorem handle_transcribe_success (env : Env) (request : Request)
    (uploaded : FileStorage) (w : World) (tmp_name : pystr) (w1 : World)
    (result : WhisperResult) (segments : list Segment) (clips : list TimelineClip)
    (payload : Body) :
  validated request uploaded ->
  NamedTemporaryFile env (upload_suffix uploaded) w = (Ok tmp_name, w1) ->
  save_raises env = None ->
  load_model_raises env = None \/ is_Some (_model w) ->
  model_transcribe env tmp_name (Some (stream uploaded))
    (or_None (form_language request)) = Ok result ->
  transcribe_loop (dict_get (result_segments result) []) [] = Ok segments ->
  segments_to_timeline_clips segments = Ok clips ->
  jsonify (ClipsBody clips (Z.of_nat (length clips))) = Ok payload ->
  payload = ClipsBody clips (Z.of_nat (length clips))
  /\ fst (handle_transcribe env request w) = Ok (mkResponse 200 payload).
Proof.
  intros Hvalid Htmp Hsave Hload Hmodel Hloop Hconv Hjson.
  split; [by apply jsonify_Ok in Hjson|].
  rewrite (handle_transcribe_after_tmp _ _ _ _ _ _ Hvalid Htmp).
  destruct (NamedTemporaryFile_Ok _ _ _ _ _ Htmp) as (_ & -> & _).
  unfold process, bind, save. rewrite Hsave.
  unfold set_fs, log_op, print, bind. cbv beta iota.
  match goal with |- context [transcribe env tmp_name ?l ?wb] =>
    pose proof (transcribe_returns env tmp_name l wb result segments) as Hrun;
    destruct (transcribe env tmp_name l wb) as [r wc]
  end.
  simpl in Hrun. rewrite lookup_insert_eq, or_None_idempotent in Hrun.
  rewrite (Hrun Hload Hmodel Hloop). unfold lift. rewrite Hconv, Hjson.
  reflexivity.
Qed.

Lemma handle_transcribe_success_witness :
  fst (handle_transcribe
         (with_model_transcribe good_env (fun _ _ _ => Ok (mkWhisperResult None)))
         upload_request fresh_world)
  = Ok (mkResponse 200 (ClipsBody [] 0)).
Proof.
  apply (handle_transcribe_success
           (with_model_transcribe good_env (fun _ _ _ => Ok (mkWhisperResult None)))
           upload_request clip_upload fresh_world (str "/tmp/tmpk3x9.mov")
           (snd (NamedTemporaryFile good_env (upload_suffix clip_upload) fresh_world))
           (mkWhisperResult None) [] [] (ClipsBody [] 0)).
  - split; reflexivity.
  - vm_compute; reflexivity.
  - reflexivity.
  - by left.
  - reflexivity.
  - reflexivity.
  - reflexivity.
  - vm_compute; reflexivity.
Defined.

(** X25: when the bounds the model returns are floats, the conversion of
    what the loop of [transcribe] returns never raises. *)
Theorem float_transcription_converts (raw segments : list Segment) :
  Forall float_bounds raw ->
  transcribe_loop raw [] = Ok segments ->
  exists clips, segments_to_timeline_clips segments = Ok clips.
Proof.
  intros Hfloat Hloop.
  destruct (transcribe_loop_Ok _ _ _ Hloop) as (kept & new & -> & Hsub & Hall).
  simpl. apply for_loop_total.
  apply (Forall2_Forall_r _ _ _ _ Hall). apply Forall_forall.
  intros r Hr seg (s & e & Hs & He & _ & ->).
  apply sublist_subseteq in Hsub.
  rewrite Forall_forall in Hfloat. destruct (Hfloat r (Hsub r Hr)) as [Hfs Hfe].
  destruct (Hfs s Hs) as [fs' ->]. destruct (Hfe e He) as [fe' ->].
  apply same_kind_subtracts. reflexivity.
Qed.

Lemma float_transcription_converts_witness :
  exists clips,
    segments_to_timeline_clips
      [mkSegment (Some (PyFloat 1.2)) (Some (PyFloat 3.7)) (Some (str "Hello world"));
       still_segment] = Ok clips.
Proof.
  apply (float_transcription_converts [blank_raw_segment; hello_segment; still_segment]).
  - repeat constructor; intros x [=]; by eexists.
  - vm_compute; reflexivity.
Defined.
